(** * Session orchestration of the Flask/MSAL sample web application

    A shallow embedding of [src/webapp/app.py]: the Flask session is a finite
    map from string keys to Python values, every view function is a
    computation in a small state-and-exception monad that also records the
    session writes and the calls made to the identity library, and the
    identity library (MSAL), the HTTP client ([requests]) and the application
    configuration are interfaces the views are parameterised over. *)

From stdpp Require Import base option list strings gmap fin_maps.
From Stdlib Require Import ZArith.

Open Scope string_scope.

#[local] Set Warnings "-register-all".

(** ** Python values *)

(** The values that live in the session and travel between the application
    and the identity library: JSON-like data.  A [dict] keeps its insertion
    order, so it is an association list with unique string keys. *)
Inductive pyval : Type :=
  | PNone
  | PBool (b : bool)
  | PInt (z : Z)
  | PStr (s : string)
  | PList (l : list pyval)
  | PDict (d : list (string * pyval)).

(** Exceptions the views can raise or let through, by class.  An instance
    of a class that derives from RuntimeError is a [RuntimeErrorSubclass];
    [OtherError] is an exception of any class outside that family and not
    listed here. *)
Inductive exn : Type :=
  | KeyError (key : string)
  | TypeError
  | IndexError
  | ValueError
  | RuntimeError
  | RuntimeErrorSubclass (name : string)
  | OtherError (name : string)
  | Unauthorized (description : string)
  | Forbidden (description : string).

(** [isinstance(e, RuntimeError)]. *)
Definition is_RuntimeError (e : exn) : bool :=
  match e with
  | RuntimeError | RuntimeErrorSubclass _ => true
  | _ => false
  end.

(** [bool(v)]: the truth value Python gives [v] in [if] and [not]. *)
Definition truthy (v : pyval) : bool :=
  match v with
  | PNone => false
  | PBool b => b
  | PInt z => negb (Z.eqb z 0)
  | PStr s => negb (String.eqb s "")
  | PList l => match l with [] => false | _ => true end
  | PDict d => match d with [] => false | _ => true end
  end.

(** [d.get(k)] on a dict. *)
Fixpoint dict_get (k : string) (d : list (string * pyval)) : option pyval :=
  match d with
  | [] => None
  | (k', v) :: d' => if String.eqb k k' then Some v else dict_get k d'
  end.

(** [d[k] = v] on a dict: an existing key keeps its place. *)
Fixpoint dict_set (k : string) (v : pyval) (d : list (string * pyval))
  : list (string * pyval) :=
  match d with
  | [] => [(k, v)]
  | (k', v') :: d' =>
      if String.eqb k k' then (k, v) :: d' else (k', v') :: dict_set k v d'
  end.

(** [v[k]] for a string subscript [k]. *)
Definition py_getitem (v : pyval) (k : string) : exn + pyval :=
  match v with
  | PDict d => match dict_get k d with
               | Some x => inr x
               | None => inl (KeyError k)
               end
  | _ => inl TypeError
  end.

(** [v[k] = x] for a string subscript [k]. *)
Definition py_setitem (v : pyval) (k : string) (x : pyval) : exn + pyval :=
  match v with
  | PDict d => inr (PDict (dict_set k x d))
  | _ => inl TypeError
  end.

(** [l[0]] on a list. *)
Definition list_getitem0 (l : list pyval) : exn + pyval :=
  match l with
  | [] => inl IndexError
  | a :: _ => inr a
  end.

(** [x == PStr s]: a string equals only the same string. *)
Definition py_eq_str (s : string) (x : pyval) : bool :=
  match x with
  | PStr t => String.eqb s t
  | _ => false
  end.

(** [s in t] for two strings: [s] occurs in [t] as a substring. *)
Fixpoint str_contains (s t : string) : bool :=
  String.prefix s t ||
  match t with
  | EmptyString => false
  | String _ t' => str_contains s t'
  end.

(** [s in v] for a string [s]: key membership in a dict, element membership
    in a list, substring in a string, [TypeError] on the rest. *)
Definition py_contains (s : string) (v : pyval) : exn + bool :=
  match v with
  | PDict d => inr (bool_decide (is_Some (dict_get s d)))
  | PList l => inr (existsb (py_eq_str s) l)
  | PStr t => inr (str_contains s t)
  | _ => inl TypeError
  end.

(** ** Requests, responses and the effect monad *)

(** The routes of the application and the rule each is registered under. *)
Inductive route : Type := Index | Authorized | Graph | Admin | Logout.

Definition rule (r : route) : string :=
  match r with
  | Index => "/"
  | Authorized => "/auth/redirect"
  | Graph => "/graph"
  | Admin => "/admin"
  | Logout => "/logout"
  end.

(** What a view reads of the current request. *)
Record request : Type := {
  url_rule : route;      (* the matched rule *)
  host_url : string;     (* scheme and host, e.g. "http://localhost:5000" *)
  args : pyval           (* the query parameters *)
}.

(** [url_for(endpoint)] and [url_for(endpoint, _external=True)]. *)
Definition url_for (r : route) : string := rule r.
Definition url_for_external (req : request) (r : route) : string :=
  host_url req ++ rule r.

Inductive response : Type :=
  | Redirect (location : string)
  | Render (template : string) (context : pyval).

(** What a request leaves behind besides the response: session mutations and
    calls to the external collaborators, in the order they happened. *)
Inductive event : Type :=
  | SessionPop (k : string)
  | SessionSet (k : string) (v : pyval)
  | DecodeIdToken (tok : pyval)
  | NewClient
  | InitiateAuthCodeFlow (redirect_uri : string)
  | AcquireTokenByAuthCodeFlow (flow : pyval) (params : pyval)
  | GetAccounts
  | AcquireTokenSilent (account : pyval)
  | RequestsGet (url : string) (bearer : pyval).

Record state : Type := {
  session : gmap string pyval;
  trace : list event
}.

(** A view is a state transformer that returns a value or raises. *)
Definition M (A : Type) : Type := state → state * (exn + A).

#[export] Instance M_ret : MRet M := λ A a st, (st, inr a).
#[export] Instance M_bind : MBind M := λ A B f m st,
  match m st with
  | (st', inr a) => f a st'
  | (st', inl e) => (st', inl e)
  end.

Definition raise {A} (e : exn) : M A := λ st, (st, inl e).

(** Lift a pure fallible computation. *)
Definition lift {A} (r : exn + A) : M A := λ st, (st, r).

Definition emit (e : event) : M unit := λ st,
  ({| session := session st; trace := trace st ++ [e] |}, inr tt).

(** A call to an external collaborator: it is recorded, then yields the
    collaborator's answer. *)
Definition call {A} (e : event) (r : exn + A) : M A := emit e ≫= λ _, lift r.

(** [try: body except RuntimeError as err: raise e' from err]: the clause
    catches RuntimeError and every subclass of it. *)
Definition except_RuntimeError {A} (body : M A) (e' : exn) : M A := λ st,
  match body st with
  | (st', inl e) => (st', inl (if is_RuntimeError e then e' else e))
  | r => r
  end.

(** *** Session access *)

(** [session.get(k)] and [session.get(k, d)].  Both give the value stored
    under [k].  In Python that value is the stored object itself: the views
    hand the dict stored under msal_http_response_cache to the MSAL client,
    which may update it in place, so between the construction of a client
    and the assignment [session["msal_http_response_cache"] = http_cache]
    the content of that one field is the library's business.  The session
    of this model carries the field as it was last assigned; what is stated
    about a view that stops between the two points leaves that field out. *)
Definition session_get (k : string) : M pyval := λ st,
  (st, inr (default PNone (session st !! k))).
Definition session_get_default (k : string) (d : pyval) : M pyval := λ st,
  (st, inr (default d (session st !! k))).

(** [session[k]]. *)
Definition session_getitem (k : string) : M pyval := λ st,
  match session st !! k with
  | Some v => (st, inr v)
  | None => (st, inl (KeyError k))
  end.

(** [session[k] = v]. *)
Definition session_setitem (k : string) (v : pyval) : M unit := λ st,
  ({| session := <[k := v]> (session st);
      trace := trace st ++ [SessionSet k v] |}, inr tt).

(** [session.pop(k)]: raises [KeyError] when [k] is missing. *)
Definition session_pop (k : string) : M pyval := λ st,
  match session st !! k with
  | Some v => ({| session := delete k (session st);
                  trace := trace st ++ [SessionPop k] |}, inr v)
  | None => (st, inl (KeyError k))
  end.

(** [session.pop(k, None)]. *)
Definition session_pop_default (k : string) : M pyval := λ st,
  ({| session := delete k (session st);
      trace := trace st ++ [SessionPop k] |},
   inr (default PNone (session st !! k))).

(** [redirect(location)]. *)
Definition redirect (location : pyval) : M response :=
  match location with
  | PStr u => mret (Redirect u)
  | _ => raise TypeError
  end.

(** Whether a trace writes the session field [k] by assignment. *)
Definition sets (k : string) (e : event) : bool :=
  match e with
  | SessionSet k' _ => String.eqb k k'
  | _ => false
  end.
Definition assigns (k : string) (tr : list event) : bool := existsb (sets k) tr.

(** Whether a trace contains a call that exchanges or redeems tokens. *)
Definition exchanges (tr : list event) : bool :=
  existsb (λ e, match e with
                | AcquireTokenByAuthCodeFlow _ _ | AcquireTokenSilent _ => true
                | _ => false
                end) tr.


(** ** External collaborators *)

(** The part of MSAL for Python the application calls.  A client holds the
    token cache and the HTTP cache it was built with and updates them in
    place; here every method that can touch them returns the client in its
    new state, and the caches are read back from it. *)
Module msal.
Class Lib : Type := {
  token_cache : Type;
  client : Type;
  (* msal.SerializableTokenCache() *)
  SerializableTokenCache : token_cache;
  deserialize : token_cache → pyval → exn + token_cache;
  serialize : token_cache → pyval;
  has_state_changed : token_cache → bool;
  (* msal.ConfidentialClientApplication(client_id, authority=,
     client_credential=, token_cache=, http_cache=) *)
  ConfidentialClientApplication :
    pyval → pyval → option pyval → option token_cache → pyval → exn + client;
  token_cache_of : client → token_cache;
  http_cache_of : client → pyval;
  initiate_auth_code_flow :
    client → list string → string → exn + (pyval * client);
  acquire_token_by_auth_code_flow :
    client → pyval → pyval → exn + (pyval * client);
  get_accounts : client → exn + (list pyval * client);
  acquire_token_silent :
    client → list string → pyval → exn + (pyval * client);
  (* msal.oauth2cli.oidc.decode_id_token *)
  decode_id_token : pyval → exn + pyval
}.
End msal.

(** [requests.get(url, headers={"Authorization": f"Bearer {token}"}).json()]. *)
Module requests.
Class Lib : Type := {
  get_json : string → pyval → exn + pyval
}.
End requests.

(** The three configuration keys read through [app.config.get]. *)
Record config : Type := {
  CLIENT_ID : pyval;
  AUTHORITY : pyval;
  CLIENT_CREDENTIAL : pyval
}.

Definition User_Read : list string := ["https://graph.microsoft.com/User.Read"].

Definition start (s : gmap string pyval) : state :=
  {| session := s; trace := [] |}.

(** ** The views *)

Section create_app.
Variable L : msal.Lib.
Variable R : requests.Lib.
Variable cfg : config.

(** The handler registered for [Unauthorized] (app.py,
    [initiate_auth_code_flow]). *)
Definition initiate_auth_code_flow (req : request) (error : exn) : M response :=
  session_pop_default "user";;
  http_cache ← session_get_default "msal_http_response_cache" (PDict []);
  msal_client ← call NewClient
    (msal.ConfidentialClientApplication
       (CLIENT_ID cfg) (AUTHORITY cfg) None None http_cache);
  '(auth_code_flow, msal_client) ←
    call (InitiateAuthCodeFlow (url_for_external req Authorized))
      (msal.initiate_auth_code_flow msal_client User_Read
         (url_for_external req Authorized));
  auth_code_flow ← lift (py_setitem auth_code_flow "post_sign_in_url"
                           (PStr (rule (url_rule req))));
  session_setitem "auth_code_flow" auth_code_flow;;
  session_setitem "msal_http_response_cache" (msal.http_cache_of msal_client);;
  stored ← session_getitem "auth_code_flow";
  auth_uri ← lift (py_getitem stored "auth_uri");
  redirect auth_uri.

(** [GET /] (app.py, [index]). *)
Definition index : M response :=
  mret (Render "public/index.html" (PDict [])).

(** [GET /auth/redirect] (app.py, [authorized]). *)
Definition authorized (req : request) : M response :=
  auth_code_flow ← session_pop "auth_code_flow";
  entry ← session_get "token_cache";
  token_cache ←
    (if truthy entry
     then blob ← session_getitem "token_cache";
          lift (msal.deserialize msal.SerializableTokenCache blob)
     else mret msal.SerializableTokenCache);
  http_cache ← session_get_default "msal_http_response_cache" (PDict []);
  msal_client ← call NewClient
    (msal.ConfidentialClientApplication
       (CLIENT_ID cfg) (AUTHORITY cfg) (Some (CLIENT_CREDENTIAL cfg))
       (Some token_cache) http_cache);
  '(result, msal_client) ←
    call (AcquireTokenByAuthCodeFlow auth_code_flow (args req))
      (msal.acquire_token_by_auth_code_flow msal_client auth_code_flow
         (args req));
  session_setitem "token_cache"
    (msal.serialize (msal.token_cache_of msal_client));;
  session_setitem "msal_http_response_cache" (msal.http_cache_of msal_client);;
  id_token ← lift (py_getitem result "id_token");
  id_token_claims ← lift (py_getitem result "id_token_claims");
  session_setitem "user"
    (PDict [("id_token", id_token); ("id_token_claims", id_token_claims)]);;
  target ← lift (py_getitem auth_code_flow "post_sign_in_url");
  redirect target.

(** [msal.oauth2cli.oidc.decode_id_token(session["user"]["id_token"])]
    inside [try ... except RuntimeError], as both protected views do. *)
Definition check_id_token (description : string) : M pyval :=
  except_RuntimeError
    (user ← session_getitem "user";
     id_token ← lift (py_getitem user "id_token");
     call (DecodeIdToken id_token) (msal.decode_id_token id_token))
    (Unauthorized description).

(** [GET /graph] (app.py, [graph]). *)
Definition graph : M response :=
  user ← session_get "user";
  entry ← session_get "token_cache";
  if negb (truthy user) || negb (truthy entry)
  then raise (Unauthorized "")
  else
    check_id_token "ID Token expired or invalid";;
    blob ← session_getitem "token_cache";
    token_cache ← lift (msal.deserialize msal.SerializableTokenCache blob);
    http_cache ← session_get_default "msal_http_response_cache" (PDict []);
    msal_client ← call NewClient
      (msal.ConfidentialClientApplication
         (CLIENT_ID cfg) (AUTHORITY cfg) (Some (CLIENT_CREDENTIAL cfg))
         (Some token_cache) http_cache);
    '(accounts, msal_client) ←
      call GetAccounts (msal.get_accounts msal_client);
    account ← lift (list_getitem0 accounts);
    '(result, msal_client) ←
      call (AcquireTokenSilent account)
        (msal.acquire_token_silent msal_client User_Read account);
    (if msal.has_state_changed (msal.token_cache_of msal_client)
     then session_setitem "token_cache"
            (msal.serialize (msal.token_cache_of msal_client))
     else mret tt);;
    session_setitem "msal_http_response_cache"
      (msal.http_cache_of msal_client);;
    access_token ← lift (py_getitem result "access_token");
    response ← call (RequestsGet "https://graph.microsoft.com/v1.0/me" access_token)
      (requests.get_json "https://graph.microsoft.com/v1.0/me" access_token);
    mret (Render "authenticated/graph.html"
            (PDict [("graphCallResponse", response)])).

(** [GET /admin] (app.py, [admin]). *)
Definition admin : M response :=
  user ← session_get "user";
  if negb (truthy user)
  then raise (Unauthorized "")
  else
    check_id_token "ID Token expired or invalid.";;
    user ← session_getitem "user";
    user_claims ← lift (py_getitem user "id_token_claims");
    has_roles ← lift (py_contains "roles" user_claims);
    missing ←
      (if negb has_roles then mret true
       else roles ← lift (py_getitem user_claims "roles");
            has_admin ← lift (py_contains "admin" roles);
            mret (negb has_admin));
    if (missing : bool)
    then raise (Forbidden "User is missing a required role.")
    else mret (Render "authenticated/admin.html"
                 (PDict [("graphCallResponse", user_claims)])).

(** [GET /logout] (app.py, [logout]). *)
Definition logout : M response :=
  session_pop_default "user";;
  session_pop_default "auth_code_flow";;
  session_pop_default "token_cache";;
  redirect (PStr (url_for Index)).

(** The view registered for the matched rule. *)
Definition view_function (req : request) : M response :=
  match url_rule req with
  | Index => index
  | Authorized => authorized req
  | Graph => graph
  | Admin => admin
  | Logout => logout
  end.

(** Flask's dispatch: run the view; an [Unauthorized] it raises goes to the
    registered error handler, every other exception becomes the error
    response.  The session is saved with the response either way, so the
    mutations made before an exception persist. *)
Definition dispatch (req : request) : M response := λ st,
  match view_function req st with
  | (st', inl (Unauthorized d)) => initiate_auth_code_flow req (Unauthorized d) st'
  | r => r
  end.

(** One request against the session [s]. *)
Definition handle (req : request) (s : gmap string pyval)
  : state * (exn + response) :=
  dispatch req (start s).

End create_app.

(** ** Intermediate states of the views *)

Section intermediate.
Variables (L : msal.Lib) (R : requests.Lib).

(** The session the error handler leaves when the library builds the flow
    [flow] and hands its HTTP cache back as [http_cache]. *)
Definition flow_begun (req : request) (flow : list (string * pyval))
    (http_cache : pyval) (s : gmap string pyval) : gmap string pyval :=
  <["msal_http_response_cache" := http_cache]>
    (<["auth_code_flow" :=
         PDict (dict_set "post_sign_in_url" (PStr (rule (url_rule req))) flow)]>
       (delete "user" s)).

(** The token cache [authorized] hands to the client: the session's one
    when the entry is truthy, a new one otherwise. *)
Definition hydrated (s : gmap string pyval) : exn + msal.token_cache :=
  if truthy (default PNone (s !! "token_cache"))
  then msal.deserialize msal.SerializableTokenCache
         (default PNone (s !! "token_cache"))
  else inr msal.SerializableTokenCache.

(** What /graph does once silent acquisition has returned [result]. *)
Definition graph_after_silent (result : pyval) (msal_client : msal.client)
  : M response :=
  (if msal.has_state_changed (msal.token_cache_of msal_client)
   then session_setitem "token_cache"
          (msal.serialize (msal.token_cache_of msal_client))
   else mret tt);;
  session_setitem "msal_http_response_cache" (msal.http_cache_of msal_client);;
  access_token ← lift (py_getitem result "access_token");
  response ← call (RequestsGet "https://graph.microsoft.com/v1.0/me" access_token)
    (requests.get_json "https://graph.microsoft.com/v1.0/me" access_token);
  mret (Render "authenticated/graph.html"
          (PDict [("graphCallResponse", response)])).

End intermediate.

(** ** The sessions a browser can reach *)

(** A new session is empty; every request, whatever the route, the query
    parameters and the behaviour of the collaborators, leads from a session
    to the session saved with its response. *)
Inductive reachable : gmap string pyval → Prop :=
  | reachable_new : reachable ∅
  | reachable_request L R cfg req s :
      reachable s → reachable (session (handle L R cfg req s).1).

(** No pending flow together with a signed-in user. *)
Definition exclusive (s : gmap string pyval) : Prop :=
  ¬ (is_Some (s !! "auth_code_flow") ∧ is_Some (s !! "user")).

(** A computation whose effect on the session and whose result depend on the
    session alone, not on what was recorded before. *)
Definition session_determined {A} (m : M A) : Prop :=
  ∀ st1 st2, session st1 = session st2 →
    session (m st1).1 = session (m st2).1 ∧ (m st1).2 = (m st2).2.

(** ** A small identity provider to run the views against *)

Module Demo.

(** The token cache is its serialized text and the changed flag. *)
Definition cache : Type := string * bool.

Definition deserialize (_ : cache) (v : pyval) : exn + cache :=
  match v with
  | PStr s => inr (s, false)
  | _ => inl TypeError
  end.

(** The serialization of a cache is never the empty string. *)
Definition serialize (tc : cache) : pyval :=
  PStr (if String.eqb tc.1 "" then "{}" else tc.1).

Definition new_client (_ _ : pyval) (_ : option pyval) (tc : option cache)
    (http_cache : pyval) : exn + (cache * pyval) :=
  inr (default ("{}", false) tc, http_cache).

Definition initiate (c : cache * pyval) (_ : list string) (redirect_uri : string)
  : exn + (pyval * (cache * pyval)) :=
  inr (PDict [("auth_uri", PStr "https://login.example/authorize");
              ("state", PStr "s-1");
              ("redirect_uri", PStr redirect_uri)],
       (c.1, PDict [("metadata", PStr "cached")])).

(** A callback that carries a code is redeemed; any other is answered with
    an error result. *)
Definition redeem (c : cache * pyval) (flow params : pyval)
  : exn + (pyval * (cache * pyval)) :=
  match py_getitem params "code" with
  | inr _ =>
      inr (PDict [("id_token", PStr "id-token");
                  ("id_token_claims",
                    PDict [("name", PStr "alice");
                           ("roles", PList [PStr "reader"])]);
                  ("access_token", PStr "at-1")],
           (("{alice}", true), c.2))
  | inl _ => inr (PDict [("error", PStr "invalid_grant")], c)
  end.

Definition accounts (c : cache * pyval) : exn + (list pyval * (cache * pyval)) :=
  inr (if String.eqb c.1.1 "{}" then []
       else [PDict [("username", PStr "alice")]], c).

(** An expired access token is refreshed, which changes the cache; a cache
    without a usable token gives [None]. *)
Definition silent (c : cache * pyval) (_ : list string) (_ : pyval)
  : exn + (pyval * (cache * pyval)) :=
  if String.eqb c.1.1 "{alice,expired}"
  then inr (PDict [("access_token", PStr "at-2")], (("{alice}", true), c.2))
  else if String.eqb c.1.1 "{alice,revoked}"
  then inr (PNone, c)
  else inr (PDict [("access_token", PStr "at-1")], c).

Definition decode (tok : pyval) : exn + pyval :=
  match tok with
  | PStr s => if String.eqb s "expired-id-token" then inl RuntimeError
              else inr (PDict [("name", PStr "alice")])
  | _ => inl TypeError
  end.

Definition lib : msal.Lib := {|
  msal.token_cache := cache;
  msal.client := cache * pyval;
  msal.SerializableTokenCache := ("{}", false);
  msal.deserialize := deserialize;
  msal.serialize := serialize;
  msal.has_state_changed := snd;
  msal.ConfidentialClientApplication := new_client;
  msal.token_cache_of := fst;
  msal.http_cache_of := snd;
  msal.initiate_auth_code_flow := initiate;
  msal.acquire_token_by_auth_code_flow := redeem;
  msal.get_accounts := accounts;
  msal.acquire_token_silent := silent;
  msal.decode_id_token := decode
|}.

Definition http : requests.Lib := {|
  requests.get_json := λ _ _, inr (PDict [("displayName", PStr "alice")])
|}.

Definition cfg : config := {|
  CLIENT_ID := PStr "client-id";
  AUTHORITY := PStr "https://login.example/tenant";
  CLIENT_CREDENTIAL := PStr "secret"
|}.

Definition get (r : route) (query : list (string * pyval)) : request :=
  {| url_rule := r; host_url := "http://localhost:5000"; args := PDict query |}.

Definition run (r : route) (query : list (string * pyval))
    (s : gmap string pyval) : state * (exn + response) :=
  handle lib http cfg (get r query) s.

(** A signed-in session, by ID token, roles and token cache text. *)
Definition signed_in (id_token : string) (roles : list pyval) (blob : string)
  : gmap string pyval :=
  <["user" := PDict [("id_token", PStr id_token);
                     ("id_token_claims", PDict [("roles", PList roles)])]]>
    (<["token_cache" := PStr blob]> ∅).

End Demo.

(** A downstream API that cannot be reached. *)
Module Outage.
Definition http : requests.Lib := {|
  requests.get_json := λ _ _, inl (OtherError "ConnectionError")
|}.

(** An identity provider whose metadata endpoint cannot be reached: no
    client can be built. *)
Definition lib : msal.Lib := {|
  msal.token_cache := Demo.cache;
  msal.client := Demo.cache * pyval;
  msal.SerializableTokenCache := ("{}", false);
  msal.deserialize := Demo.deserialize;
  msal.serialize := Demo.serialize;
  msal.has_state_changed := snd;
  msal.ConfidentialClientApplication :=
    λ _ _ _ _ _, inl (OtherError "ConnectionError");
  msal.token_cache_of := fst;
  msal.http_cache_of := snd;
  msal.initiate_auth_code_flow := Demo.initiate;
  msal.acquire_token_by_auth_code_flow := Demo.redeem;
  msal.get_accounts := Demo.accounts;
  msal.acquire_token_silent := Demo.silent;
  msal.decode_id_token := Demo.decode
|}.
End Outage.

(** ** The shape of the records the views store *)

(** The user record [authorized] stores (app.py, lines 192-195). *)
Definition user_record (v : pyval) : Prop :=
  ∃ id_token claims,
    v = PDict [("id_token", id_token); ("id_token_claims", claims)].

(** The pending flow the error handler stores (app.py, lines 109-112): a
    dict whose post_sign_in_url is the rule of a route. *)
Definition pending_record (v : pyval) : Prop :=
  ∃ d r, v = PDict d ∧ dict_get "post_sign_in_url" d = Some (PStr (rule r)).

Definition well_formed (s : gmap string pyval) : Prop :=
  (∀ v, s !! "user" = Some v → user_record v) ∧
  (∀ v, s !! "auth_code_flow" = Some v → pending_record v).


(** How one request may change the two records: each is left as it was,
    removed, or replaced by a record of the right shape. *)
Definition records_step (s s' : gmap string pyval) : Prop :=
  (s' !! "user" = s !! "user" ∨ s' !! "user" = None ∨
   ∃ v, s' !! "user" = Some v ∧ user_record v) ∧
  (s' !! "auth_code_flow" = s !! "auth_code_flow" ∨
   s' !! "auth_code_flow" = None ∨
   ∃ v, s' !! "auth_code_flow" = Some v ∧ pending_record v).

(** * Properties *)

(** ** Dictionaries and membership *)

Lemma dict_get_set_eq k v d : dict_get k (dict_set k v d) = Some v.
Proof.
  induction d as [|[k' v'] d IH]; simpl.
  - by rewrite String.eqb_refl.
  - destruct (String.eqb k k') eqn:E; simpl.
    + by rewrite String.eqb_refl.
    + by rewrite E.
Qed.

Lemma dict_get_set_ne k k' v d :
  k ≠ k' → dict_get k (dict_set k' v d) = dict_get k d.
Proof.
  intros Hne. apply String.eqb_neq in Hne.
  induction d as [|[k0 v0] d IH]; simpl.
  - by rewrite Hne.
  - destruct (String.eqb k' k0) eqn:E; simpl.
    + apply String.eqb_eq in E as <-. by rewrite Hne.
    + by rewrite IH.
Qed.

Lemma dict_get_truthy k d v : dict_get k d = Some v → truthy (PDict d) = true.
Proof. by destruct d. Qed.

Lemma existsb_py_eq_str s l :
  existsb (py_eq_str s) l = false ↔ PStr s ∉ l.
Proof.
  induction l as [|x l IH]; simpl.
  - split; [intros _; apply not_elem_of_nil | done].
  - rewrite orb_false_iff, IH, not_elem_of_cons. split.
    + intros [Hx Hl]. split; [|done]. intros <-. simpl in Hx.
      by rewrite String.eqb_refl in Hx.
    + intros [Hx Hl]. split; [|done]. destruct x; simpl; try done.
      apply String.eqb_neq. congruence.
Qed.

Lemma assigns_snoc k tr e : assigns k (tr ++ [e]) = assigns k tr || sets k e.
Proof. unfold assigns. rewrite existsb_app. simpl. by rewrite orb_false_r. Qed.

(** ** Running the views *)

Ltac unfold_views :=
  unfold handle, dispatch, view_function, initiate_auth_code_flow, authorized,
    graph, admin, logout, index, check_id_token.

Ltac unfold_M :=
  unfold except_RuntimeError, call, emit, lift, raise, redirect, session_get,
    session_get_default, session_getitem, session_setitem, session_pop,
    session_pop_default, start;
  unfold mbind, M_bind, mret, M_ret.

Ltac run := unfold_views; unfold_M; simpl.

(** ** Logout *)

(** What [logout] leaves in every field it does not name. *)
Lemma logout_frame (st : state) k :
  k ≠ "user" → k ≠ "auth_code_flow" → k ≠ "token_cache" →
  session (logout st).1 !! k = session st !! k.
Proof.
  intros. run. by rewrite !lookup_delete_ne.
Qed.

(** C10: from every session, logout removes the user, pending-flow and
    token-cache entries and nothing else (the session afterwards is the
    session before with exactly these three keys deleted, so the metadata
    cache entry and every other field keep their values), and it answers
    with a redirect to the index route. *)
Theorem logout_clears_auth_entries L R cfg h q (s : gmap string pyval) :
  let out := handle L R cfg {| url_rule := Logout; host_url := h; args := q |} s in
  out.2 = inr (Redirect (url_for Index)) ∧
  session out.1 =
    delete "token_cache" (delete "auth_code_flow" (delete "user" s)) ∧
  session out.1 !! "user" = None ∧
  session out.1 !! "auth_code_flow" = None ∧
  session out.1 !! "token_cache" = None ∧
  session out.1 !! "msal_http_response_cache" = s !! "msal_http_response_cache".
Proof.
  run. repeat split.
  - rewrite !lookup_delete_ne by done. apply lookup_delete_eq.
  - rewrite lookup_delete_ne by done. apply lookup_delete_eq.
  - apply lookup_delete_eq.
  - by rewrite !lookup_delete_ne.
Qed.

(** ** Beginning the authorization-code flow *)

Section begin_flow.
Variables (L : msal.Lib) (R : requests.Lib) (cfg : config).

Lemma initiate_auth_code_flow_spec req error st client flow client' auth_uri :
  msal.ConfidentialClientApplication (CLIENT_ID cfg) (AUTHORITY cfg) None None
    (default (PDict []) (session st !! "msal_http_response_cache")) = inr client →
  msal.initiate_auth_code_flow client User_Read (url_for_external req Authorized)
    = inr (PDict flow, client') →
  dict_get "auth_uri" flow = Some (PStr auth_uri) →
  initiate_auth_code_flow L cfg req error st =
    ({| session := flow_begun req flow (msal.http_cache_of client') (session st);
        trace := trace st ++
          [SessionPop "user"; NewClient;
           InitiateAuthCodeFlow (url_for_external req Authorized);
           SessionSet "auth_code_flow"
             (PDict (dict_set "post_sign_in_url"
                       (PStr (rule (url_rule req))) flow));
           SessionSet "msal_http_response_cache" (msal.http_cache_of client')] |},
     inr (Redirect auth_uri)).
Proof.
  intros Hnew Hflow Huri. run.
  rewrite lookup_delete_ne by done. rewrite Hnew, Hflow. simpl.
  rewrite lookup_insert_ne by done. rewrite lookup_insert_eq.
  unfold py_getitem. rewrite dict_get_set_ne by done. rewrite Huri. simpl.
  unfold flow_begun. by rewrite <- !app_assoc.
Qed.

Lemma flow_begun_lookup req flow http_cache s :
  flow_begun req flow http_cache s !! "user" = None ∧
  flow_begun req flow http_cache s !! "auth_code_flow" =
    Some (PDict (dict_set "post_sign_in_url" (PStr (rule (url_rule req))) flow)).
Proof.
  unfold flow_begun. split.
  - rewrite !lookup_insert_ne by done. apply lookup_delete_eq.
  - rewrite lookup_insert_ne by done. apply lookup_insert_eq.
Qed.

(** Both protected views raise [Unauthorized] at their first statement when
    the session has no truthy user entry, having done nothing else. *)
Lemma graph_guard st :
  truthy (default PNone (session st !! "user")) = false ∨
  truthy (default PNone (session st !! "token_cache")) = false →
  graph L R cfg st = (st, inl (Unauthorized "")).
Proof.
  intros [H|H]; run; rewrite H; simpl; [done|].
  by rewrite orb_true_r.
Qed.

Lemma admin_guard st :
  truthy (default PNone (session st !! "user")) = false →
  admin L st = (st, inl (Unauthorized "")).
Proof. intros H. run. by rewrite H. Qed.

(** C2: a request to /graph or /admin whose session has no user entry is
    answered, when the identity library builds the authorization request
    (a flow dict with its auth_uri), with a redirect to that authorization
    endpoint, and the flow dict, extended with the rule of the requested
    route as post_sign_in_url, is stored in the session as the pending
    flow. *)
Theorem protected_route_without_user_begins_flow
    req (s : gmap string pyval) client flow client' auth_uri :
  url_rule req = Graph ∨ url_rule req = Admin →
  s !! "user" = None →
  msal.ConfidentialClientApplication (CLIENT_ID cfg) (AUTHORITY cfg) None None
    (default (PDict []) (s !! "msal_http_response_cache")) = inr client →
  msal.initiate_auth_code_flow client User_Read (url_for_external req Authorized)
    = inr (PDict flow, client') →
  dict_get "auth_uri" flow = Some (PStr auth_uri) →
  let out := handle L R cfg req s in
  let pending :=
    dict_set "post_sign_in_url" (PStr (rule (url_rule req))) flow in
  out.2 = inr (Redirect auth_uri) ∧
  session out.1 !! "auth_code_flow" = Some (PDict pending) ∧
  dict_get "post_sign_in_url" pending = Some (PStr (rule (url_rule req))) ∧
  dict_get "auth_uri" pending = Some (PStr auth_uri).
Proof.
  intros Hroute Huser Hnew Hflow Huri out pending.
  assert (Hout : out = initiate_auth_code_flow L cfg req (Unauthorized "") (start s)).
  { subst out. unfold handle, dispatch, view_function.
    destruct Hroute as [-> | ->].
    - rewrite graph_guard; [done|]. left. simpl. by rewrite Huser.
    - rewrite admin_guard; [done|]. simpl. by rewrite Huser. }
  rewrite Hout.
  erewrite initiate_auth_code_flow_spec by eauto. simpl.
  split; [done|]. split; [apply flow_begun_lookup|]. split.
  - apply dict_get_set_eq.
  - subst pending. by rewrite dict_get_set_ne.
Qed.

End begin_flow.

(** ** Computations that depend on the session alone *)

Lemma session_determined_from_bind {A B} (m : M A) (f : A → M B) st1 st2 :
  session (m st1).1 = session (m st2).1 → (m st1).2 = (m st2).2 →
  (∀ a, session_determined (f a)) →
  session ((m ≫= f) st1).1 = session ((m ≫= f) st2).1 ∧
  ((m ≫= f) st1).2 = ((m ≫= f) st2).2.
Proof.
  unfold mbind, M_bind. intros Hs Hr Hf.
  destruct (m st1) as [st1' [e1|a1]], (m st2) as [st2' [e2|a2]];
    simpl in *; try discriminate.
  - by injection Hr as ->.
  - injection Hr as ->. by apply Hf.
Qed.

Lemma sd_bind {A B} (m : M A) (f : A → M B) :
  session_determined m → (∀ a, session_determined (f a)) →
  session_determined (m ≫= f).
Proof.
  intros Hm Hf st1 st2 Hst. destruct (Hm st1 st2 Hst).
  by apply session_determined_from_bind.
Qed.

Lemma sd_ret {A} (a : A) : session_determined (mret a).
Proof. intros st1 st2 Hst. by unfold_M. Qed.

Lemma sd_raise {A} e : session_determined (@raise A e).
Proof. intros st1 st2 Hst. by unfold_M. Qed.

Lemma sd_lift {A} (r : exn + A) : session_determined (lift r).
Proof. intros st1 st2 Hst. by unfold_M. Qed.

Lemma sd_call {A} ev (r : exn + A) : session_determined (call ev r).
Proof. intros st1 st2 Hst. unfold call. unfold_M. by destruct r. Qed.

Lemma sd_session_get k : session_determined (session_get k).
Proof. intros st1 st2 Hst. unfold_M. simpl. by rewrite Hst. Qed.

Lemma sd_session_get_default k d : session_determined (session_get_default k d).
Proof. intros st1 st2 Hst. unfold_M. simpl. by rewrite Hst. Qed.

Lemma sd_session_getitem k : session_determined (session_getitem k).
Proof.
  intros st1 st2 Hst. unfold_M. rewrite Hst.
  by destruct (session st2 !! k).
Qed.

Lemma sd_session_setitem k v : session_determined (session_setitem k v).
Proof. intros st1 st2 Hst. unfold_M. simpl. by rewrite Hst. Qed.

Lemma sd_session_pop_default k : session_determined (session_pop_default k).
Proof. intros st1 st2 Hst. unfold_M. simpl. by rewrite Hst. Qed.

Lemma sd_redirect v : session_determined (redirect v).
Proof. destruct v; first [apply sd_ret | apply sd_raise]. Qed.

Create HintDb sd discriminated.
#[local] Hint Resolve sd_ret sd_raise sd_lift sd_call sd_session_get
  sd_session_get_default sd_session_getitem sd_session_setitem
  sd_session_pop_default sd_redirect : sd.

Ltac sd_step :=
  first
    [ solve [auto with sd]
    | match goal with |- session_determined (let '(_, _) := ?p in _) =>
        destruct p end
    | apply sd_bind; [|intros] ].

(** What the error handler does after it has dropped the stale user depends
    only on the session, so two sessions that differ in their user entry
    alone get the same response and end up equal. *)
Lemma initiate_auth_code_flow_forgets_user L cfg req e1 e2 st1 st2 :
  delete "user" (session st1) = delete "user" (session st2) →
  session (initiate_auth_code_flow L cfg req e1 st1).1 =
    session (initiate_auth_code_flow L cfg req e2 st2).1 ∧
  (initiate_auth_code_flow L cfg req e1 st1).2 =
    (initiate_auth_code_flow L cfg req e2 st2).2.
Proof.
  intros Heq. unfold initiate_auth_code_flow.
  set (rest := (_ ← session_get_default _ _; _) : M response).
  assert (Hrest : session_determined rest) by (subst rest; repeat sd_step).
  unfold mbind, M_bind, session_pop_default. by apply Hrest.
Qed.

(** ** The protected views *)

Lemma py_getitem_truthy v k x : py_getitem v k = inr x → truthy v = true.
Proof.
  destruct v as [| | | | |d]; try discriminate. by destruct d.
Qed.

Section protected_views.
Variables (L : msal.Lib) (R : requests.Lib) (cfg : config).

Lemma check_id_token_raises description st user tok :
  session st !! "user" = Some user →
  py_getitem user "id_token" = inr tok →
  msal.decode_id_token tok = inl RuntimeError →
  check_id_token L description st =
    ({| session := session st; trace := trace st ++ [DecodeIdToken tok] |},
     inl (Unauthorized description)).
Proof. intros Hu Ht Hd. run. rewrite Hu, Ht. simpl. by rewrite Hd. Qed.

Lemma check_id_token_returns description st user tok decoded :
  session st !! "user" = Some user →
  py_getitem user "id_token" = inr tok →
  msal.decode_id_token tok = inr decoded →
  check_id_token L description st =
    ({| session := session st; trace := trace st ++ [DecodeIdToken tok] |},
     inr decoded).
Proof. intros Hu Ht Hd. run. rewrite Hu, Ht. simpl. by rewrite Hd. Qed.

(** A view that finds the stored ID token undecodable raises
    [Unauthorized] and leaves the session as it was. *)
Lemma stale_token_unauthorized req (s : gmap string pyval) user tok :
  url_rule req = Graph ∨ url_rule req = Admin →
  s !! "user" = Some user →
  py_getitem user "id_token" = inr tok →
  msal.decode_id_token tok = inl RuntimeError →
  ∃ st d, view_function L R cfg req (start s) = (st, inl (Unauthorized d)) ∧
          session st = s.
Proof.
  intros Hroute Hu Ht Hd. pose proof (py_getitem_truthy _ _ _ Ht) as Htruthy.
  unfold view_function. destruct Hroute as [-> | ->].
  - destruct (truthy (default PNone (s !! "token_cache"))) eqn:Htc.
    + unfold graph. unfold mbind at 1 2 3, M_bind at 1 2 3. unfold_M. simpl.
      rewrite Hu, Htc. simpl. rewrite Htruthy. simpl.
      fold (start s).
      erewrite (check_id_token_raises _ (start s)) by eauto. simpl. eauto.
    + rewrite graph_guard by (right; simpl; done). eauto.
  - unfold admin. unfold mbind at 1 2, M_bind at 1 2. unfold_M. simpl.
    rewrite Hu. simpl. rewrite Htruthy. simpl. fold (start s).
    erewrite (check_id_token_raises _ (start s)) by eauto. simpl. eauto.
Qed.


End protected_views.

Section authorization_gate.
Variables (L : msal.Lib) (R : requests.Lib) (cfg : config).


(** C6: on /admin, a session with a user record whose ID token decodes and
    whose claims have no roles entry, or a roles array without "admin",
    gets Forbidden: the view raises it after the one token validation, the
    session is untouched, the error handler that begins a flow does not
    run, and the response is no redirect. *)
Theorem admin_without_role_is_forbidden
    req (s : gmap string pyval) user tok decoded claims :
  url_rule req = Admin →
  s !! "user" = Some (PDict user) →
  dict_get "id_token" user = Some tok →
  msal.decode_id_token tok = inr decoded →
  dict_get "id_token_claims" user = Some (PDict claims) →
  (dict_get "roles" claims = None ∨
   ∃ roles, dict_get "roles" claims = Some (PList roles) ∧ PStr "admin" ∉ roles) →
  let out := handle L R cfg req s in
  out.2 = inl (Forbidden "User is missing a required role.") ∧
  session out.1 = s ∧
  trace out.1 = [DecodeIdToken tok] ∧
  (∀ location, out.2 ≠ inr (Redirect location)).
Proof.
  intros Hroute Hu Ht Hd Hc Hroles out.
  assert (Hout : out = ({| session := s; trace := [DecodeIdToken tok] |},
                        inl (Forbidden "User is missing a required role."))).
  { subst out. unfold handle, dispatch, view_function. rewrite Hroute.
    unfold admin. unfold mbind at 1 2, M_bind at 1 2. unfold_M. simpl.
    rewrite Hu. destruct user as [|entry user']; [discriminate|]. simpl.
    fold (start s).
    erewrite (check_id_token_returns _ _ (start s)); eauto;
      [|unfold py_getitem; by rewrite Ht].
    simpl.  unfold_M. simpl. rewrite Hu. unfold py_getitem. rewrite Hc. simpl.
    destruct Hroles as [Hnone | (roles & Hsome & Hnot)].
    - by rewrite Hnone.
    - rewrite Hsome. simpl. apply existsb_py_eq_str in Hnot.
      by rewrite Hnot. }
  rewrite Hout. simpl. repeat split. intros location. discriminate.
Qed.

End authorization_gate.

(** ** The callback leg *)

Section callback.
Variables (L : msal.Lib) (R : requests.Lib) (cfg : config).

(** The callback up to the return of the code exchange. *)
Lemma authorized_exchange req (s : gmap string pyval) flow tc client r :
  s !! "auth_code_flow" = Some flow →
  hydrated L s = inr tc →
  msal.ConfidentialClientApplication (CLIENT_ID cfg) (AUTHORITY cfg)
    (Some (CLIENT_CREDENTIAL cfg)) (Some tc)
    (default (PDict []) (s !! "msal_http_response_cache")) = inr client →
  msal.acquire_token_by_auth_code_flow client flow (args req) = r →
  authorized L cfg req (start s) =
    (match r with
     | inl e => raise e
     | inr (result, msal_client) =>
         session_setitem "token_cache"
           (msal.serialize (msal.token_cache_of msal_client));;
         session_setitem "msal_http_response_cache"
           (msal.http_cache_of msal_client);;
         id_token ← lift (py_getitem result "id_token");
         id_token_claims ← lift (py_getitem result "id_token_claims");
         session_setitem "user"
           (PDict [("id_token", id_token);
                   ("id_token_claims", id_token_claims)]);;
         target ← lift (py_getitem flow "post_sign_in_url");
         redirect target
     end)
      {| session := delete "auth_code_flow" s;
         trace := [SessionPop "auth_code_flow"; NewClient;
                   AcquireTokenByAuthCodeFlow flow (args req)] |}.
Proof.
  intros Hflow Hhyd Hnew Hr. unfold hydrated in Hhyd.
  unfold authorized.
  unfold mbind at 1 2 3 4 5 6, M_bind at 1 2 3 4 5 6.
  unfold session_pop, start. simpl. rewrite Hflow. unfold session_get. simpl.
  rewrite !lookup_delete_ne by done.
  assert (Hcache :
    (if truthy (default PNone (s !! "token_cache"))
     then blob ← session_getitem "token_cache";
          lift (msal.deserialize msal.SerializableTokenCache blob)
     else mret msal.SerializableTokenCache)
      {| session := delete "auth_code_flow" s;
         trace := [SessionPop "auth_code_flow"] |}
    = ({| session := delete "auth_code_flow" s;
          trace := [SessionPop "auth_code_flow"] |}, inr tc)).
  { destruct (s !! "token_cache") as [blob|] eqn:Hb; simpl in *.
    - destruct (truthy blob); unfold_M; simpl.
      + rewrite lookup_delete_ne by done. rewrite Hb. by rewrite Hhyd.
      + by rewrite Hhyd.
    - unfold_M. by rewrite Hhyd. }
  rewrite Hcache. unfold_M. simpl. rewrite lookup_delete_ne by done.
  rewrite Hnew. simpl. rewrite Hr. by destruct r as [e|[result c]].
Qed.

(** C1: a callback whose session holds a pending flow, and whose code
    exchange returns a result with an ID token and its claims, leaves in
    the session the serialized token cache of the client (a non-empty
    string, as every serialized cache is) and the user record with the raw
    ID token and the claims, has consumed the pending flow, and is
    answered with a redirect to the post_sign_in_url recorded in the
    flow. *)
Theorem callback_success_signs_in
    req (s : gmap string pyval) flow target tc client result client'
    id_token claims :
  url_rule req = Authorized →
  s !! "auth_code_flow" = Some (PDict flow) →
  dict_get "post_sign_in_url" flow = Some (PStr target) →
  hydrated L s = inr tc →
  msal.ConfidentialClientApplication (CLIENT_ID cfg) (AUTHORITY cfg)
    (Some (CLIENT_CREDENTIAL cfg)) (Some tc)
    (default (PDict []) (s !! "msal_http_response_cache")) = inr client →
  msal.acquire_token_by_auth_code_flow client (PDict flow) (args req)
    = inr (PDict result, client') →
  dict_get "id_token" result = Some id_token →
  dict_get "id_token_claims" result = Some claims →
  (∀ c, truthy (msal.serialize c) = true) →
  let out := handle L R cfg req s in
  out.2 = inr (Redirect target) ∧
  session out.1 !! "token_cache"
    = Some (msal.serialize (msal.token_cache_of client')) ∧
  truthy (default PNone (session out.1 !! "token_cache")) = true ∧
  session out.1 !! "user"
    = Some (PDict [("id_token", id_token); ("id_token_claims", claims)]) ∧
  session out.1 !! "auth_code_flow" = None.
Proof.
  intros Hroute Hflow Htarget Hhyd Hnew Hex Hid Hclaims Hser out.
  subst out. unfold handle, dispatch, view_function. rewrite Hroute.
  erewrite authorized_exchange by eauto. unfold_M. simpl.
  rewrite Hid, Hclaims, Htarget. simpl.
  assert (Htc : (<["user" := PDict [("id_token", id_token);
                                   ("id_token_claims", claims)]]>
                  (<["msal_http_response_cache" := msal.http_cache_of client']>
                     (<["token_cache" :=
                          msal.serialize (msal.token_cache_of client')]>
                        (delete "auth_code_flow" s)))) !! "token_cache"
                = Some (msal.serialize (msal.token_cache_of client'))).
  { rewrite !lookup_insert_ne by done. apply lookup_insert_eq. }
  repeat split.
  - done.
  - rewrite Htc. simpl. apply Hser.
  - apply lookup_insert_eq.
  - rewrite !lookup_insert_ne by done. apply lookup_delete_eq.
Qed.

(** C3, as the code has it: a callback whose session has no pending-flow
    record stops at [session.pop("auth_code_flow")] with a KeyError: no
    client is built and no token exchange is attempted, the session is
    left as it was, and the request fails instead of beginning a flow. *)
Theorem callback_without_flow_exchanges_nothing req (s : gmap string pyval) :
  url_rule req = Authorized →
  s !! "auth_code_flow" = None →
  let out := handle L R cfg req s in
  out.2 = inl (KeyError "auth_code_flow") ∧
  session out.1 = s ∧
  trace out.1 = [] ∧
  exchanges (trace out.1) = false.
Proof.
  intros Hroute Hflow. run. rewrite Hroute. unfold_views. unfold_M. simpl.
  by rewrite Hflow.
Qed.

(** When the library refuses the exchange by raising (as it does for a
    flow that does not match the callback), nothing is stored: the pending
    flow is gone and every field other than the HTTP cache, which the
    client was handed, is as it was. *)
Lemma callback_rejected_stores_nothing req (s : gmap string pyval) flow tc client e :
  url_rule req = Authorized →
  s !! "auth_code_flow" = Some flow →
  hydrated L s = inr tc →
  msal.ConfidentialClientApplication (CLIENT_ID cfg) (AUTHORITY cfg)
    (Some (CLIENT_CREDENTIAL cfg)) (Some tc)
    (default (PDict []) (s !! "msal_http_response_cache")) = inr client →
  msal.acquire_token_by_auth_code_flow client flow (args req) = inl e →
  (∀ d, e ≠ Unauthorized d) →
  let out := handle L R cfg req s in
  out.2 = inl e ∧
  session out.1 !! "auth_code_flow" = None ∧
  ∀ k, k ≠ "auth_code_flow" → k ≠ "msal_http_response_cache" →
       session out.1 !! k = s !! k.
Proof.
  intros Hroute Hflow Hhyd Hnew Hex Hne out.
  subst out. unfold handle, dispatch, view_function. rewrite Hroute.
  erewrite authorized_exchange by eauto. unfold_M. simpl.
  destruct e; try (by destruct (Hne description)); simpl;
    (split; [done|]); (split; [apply lookup_delete_eq|]);
    intros k Hk _; by rewrite lookup_delete_ne.
Qed.

End callback.

(** ** Calling the downstream API *)

Section graph_view.
Variables (L : msal.Lib) (R : requests.Lib) (cfg : config).

(** /graph up to the client being ready: guard passed, ID token decoded,
    token cache loaded, client built. *)
Lemma graph_client (s : gmap string pyval) user tok decoded blob tc client
    (k : msal.client → M response) :
  s !! "user" = Some user →
  py_getitem user "id_token" = inr tok →
  msal.decode_id_token tok = inr decoded →
  s !! "token_cache" = Some blob →
  truthy blob = true →
  msal.deserialize msal.SerializableTokenCache blob = inr tc →
  msal.ConfidentialClientApplication (CLIENT_ID cfg) (AUTHORITY cfg)
    (Some (CLIENT_CREDENTIAL cfg)) (Some tc)
    (default (PDict []) (s !! "msal_http_response_cache")) = inr client →
  (user ← session_get "user";
   entry ← session_get "token_cache";
   if negb (truthy user) || negb (truthy entry)
   then raise (Unauthorized "")
   else
     check_id_token L "ID Token expired or invalid";;
     blob ← session_getitem "token_cache";
     token_cache ← lift (msal.deserialize msal.SerializableTokenCache blob);
     http_cache ← session_get_default "msal_http_response_cache" (PDict []);
     msal_client ← call NewClient
       (msal.ConfidentialClientApplication
          (CLIENT_ID cfg) (AUTHORITY cfg) (Some (CLIENT_CREDENTIAL cfg))
          (Some token_cache) http_cache);
     k msal_client) (start s)
  = k client {| session := s; trace := [DecodeIdToken tok; NewClient] |}.
Proof.
  intros Hu Ht Hd Hb Htb Hde Hnew.
  pose proof (py_getitem_truthy _ _ _ Ht) as Htruthy.
  unfold mbind at 1 2, M_bind at 1 2. unfold session_get, start. simpl.
  rewrite Hu, Hb. simpl. rewrite Htruthy, Htb. simpl.
  unfold mbind at 1, M_bind at 1.
  erewrite (check_id_token_returns L _ {| session := s; trace := [] |})
    by eauto.
  simpl. unfold_M. simpl. rewrite Hb, Hde. simpl. by rewrite Hnew.
Qed.

Lemma graph_silent (s : gmap string pyval) user tok decoded blob tc client
    account others client1 result client2 :
  s !! "user" = Some user →
  py_getitem user "id_token" = inr tok →
  msal.decode_id_token tok = inr decoded →
  s !! "token_cache" = Some blob →
  truthy blob = true →
  msal.deserialize msal.SerializableTokenCache blob = inr tc →
  msal.ConfidentialClientApplication (CLIENT_ID cfg) (AUTHORITY cfg)
    (Some (CLIENT_CREDENTIAL cfg)) (Some tc)
    (default (PDict []) (s !! "msal_http_response_cache")) = inr client →
  msal.get_accounts client = inr (account :: others, client1) →
  msal.acquire_token_silent client1 User_Read account = inr (result, client2) →
  graph L R cfg (start s) =
    graph_after_silent L R result client2
      {| session := s;
         trace := [DecodeIdToken tok; NewClient; GetAccounts;
                   AcquireTokenSilent account] |}.
Proof.
  intros Hu Ht Hd Hb Htb Hde Hnew Hacc Hsil. unfold graph.
  erewrite graph_client by eauto.
  unfold_M. simpl. rewrite Hacc. simpl. by rewrite Hsil.
Qed.

(** The begin-flow handler neither reads nor writes the token-cache
    field. *)
Lemma initiate_auth_code_flow_keeps_token_cache req error st :
  let out := initiate_auth_code_flow L cfg req error st in
  session out.1 !! "token_cache" = session st !! "token_cache" ∧
  assigns "token_cache" (trace out.1) = assigns "token_cache" (trace st).
Proof.
  run.
  repeat (case_match; simpl; simplify_eq); simpl;
    rewrite ?lookup_insert_ne by done; rewrite ?lookup_delete_ne by done;
    rewrite ?assigns_snoc; simpl; rewrite ?orb_false_r; done.
Qed.

(** C9: on a /graph request where silent acquisition returns, the view
    assigns the session's token-cache field exactly when the token cache
    object reports [has_state_changed]; the field then holds the new
    serialization, and otherwise still holds the value it had. *)
Theorem graph_rewrites_token_cache_iff_changed
    req (s : gmap string pyval) user tok decoded blob tc client
    account others client1 result client2 :
  url_rule req = Graph →
  s !! "user" = Some user →
  py_getitem user "id_token" = inr tok →
  msal.decode_id_token tok = inr decoded →
  s !! "token_cache" = Some blob →
  truthy blob = true →
  msal.deserialize msal.SerializableTokenCache blob = inr tc →
  msal.ConfidentialClientApplication (CLIENT_ID cfg) (AUTHORITY cfg)
    (Some (CLIENT_CREDENTIAL cfg)) (Some tc)
    (default (PDict []) (s !! "msal_http_response_cache")) = inr client →
  msal.get_accounts client = inr (account :: others, client1) →
  msal.acquire_token_silent client1 User_Read account = inr (result, client2) →
  let out := handle L R cfg req s in
  let changed := msal.has_state_changed (msal.token_cache_of client2) in
  (assigns "token_cache" (trace out.1) = true ↔ changed = true) ∧
  session out.1 !! "token_cache" =
    Some (if changed then msal.serialize (msal.token_cache_of client2)
          else blob).
Proof.
  intros Hroute Hu Ht Hd Hb Htb Hde Hnew Hacc Hsil out changed.
  subst out. unfold handle, dispatch, view_function. rewrite Hroute.
  erewrite graph_silent by eauto. unfold graph_after_silent.
  fold changed. unfold_M.
  destruct changed; simpl;
    destruct (py_getitem result "access_token") as [e|access_token];
    try destruct e; simpl;
    try destruct (requests.get_json _ access_token) as [e|response];
    try destruct e; simpl;
    try match goal with
        | |- context [initiate_auth_code_flow L cfg req ?e ?st] =>
            destruct (initiate_auth_code_flow_keeps_token_cache req e st)
              as [-> ->]; simpl
        end;
    (split; [tauto || (split; congruence)|]);
    rewrite ?lookup_insert_ne by done; rewrite ?lookup_insert_eq; done.
Qed.

(** With a valid session and no cached account, /graph ends in the
    IndexError of [get_accounts()[0]], whatever the library otherwise does:
    the handler that begins a flow is not reached, and no session field is
    assigned (the HTTP cache, which the client was handed, is left out). *)
Lemma graph_without_account_raises
    req (s : gmap string pyval) user tok decoded blob tc client client1 :
  url_rule req = Graph →
  s !! "user" = Some user →
  py_getitem user "id_token" = inr tok →
  msal.decode_id_token tok = inr decoded →
  s !! "token_cache" = Some blob →
  truthy blob = true →
  msal.deserialize msal.SerializableTokenCache blob = inr tc →
  msal.ConfidentialClientApplication (CLIENT_ID cfg) (AUTHORITY cfg)
    (Some (CLIENT_CREDENTIAL cfg)) (Some tc)
    (default (PDict []) (s !! "msal_http_response_cache")) = inr client →
  msal.get_accounts client = inr ([], client1) →
  let out := handle L R cfg req s in
  out.2 = inl IndexError ∧
  trace out.1 = [DecodeIdToken tok; NewClient; GetAccounts] ∧
  ∀ k, k ≠ "msal_http_response_cache" → session out.1 !! k = s !! k.
Proof.
  intros Hroute Hu Ht Hd Hb Htb Hde Hnew Hacc out. subst out.
  unfold handle, dispatch, view_function. rewrite Hroute. unfold graph.
  erewrite graph_client by eauto. unfold_M. simpl. by rewrite Hacc.
Qed.

End graph_view.

(** C4: on /graph with a valid session, silent acquisition that cannot
    produce an access token is not recovered from.  With no cached account,
    [get_accounts()[0]] raises IndexError; with an account but no usable
    token, [acquire_token_silent] returns None and [result['access_token']]
    raises TypeError.  Neither is caught, no flow is begun, and the request
    fails, although the view's own comment says that the user then has to go
    through the authorization flow again. *)
Lemma graph_crashes_when_silent_acquisition_fails :
  let no_account := Demo.run Graph [] (Demo.signed_in "id-token" [] "{}") in
  let no_token :=
    Demo.run Graph [] (Demo.signed_in "id-token" [] "{alice,revoked}") in
  no_account.2 = inl IndexError ∧
  trace no_account.1 = [DecodeIdToken (PStr "id-token"); NewClient; GetAccounts] ∧
  session no_account.1 !! "auth_code_flow" = None ∧
  no_token.2 = inl TypeError ∧
  trace no_token.1 =
    [DecodeIdToken (PStr "id-token"); NewClient; GetAccounts;
     AcquireTokenSilent (PDict [("username", PStr "alice")]);
     SessionSet "msal_http_response_cache" (PDict [])] ∧
  session no_token.1 !! "auth_code_flow" = None.
Proof. vm_compute. repeat split. Qed.

(** ** Pending flow and signed-in user exclude each other *)

Ltac cases :=
  run; repeat (case_match; simpl; simplify_eq); simpl;
  rewrite ?lookup_insert_ne by done; rewrite ?lookup_delete_ne by done.

Section exclusion.
Variables (L : msal.Lib) (R : requests.Lib) (cfg : config).

(** The begin-flow handler drops the user first, so whatever happens
    afterwards the session it leaves has no user entry. *)
Lemma initiate_auth_code_flow_removes_user req error st :
  session (initiate_auth_code_flow L cfg req error st).1 !! "user" = None.
Proof. cases; apply lookup_delete_eq. Qed.

(** The callback pops the pending flow first: either there is none and the
    session stays as it is, or the session it leaves has no pending flow. *)
Lemma authorized_consumes_flow req st :
  let out := authorized L cfg req st in
  (out = (st, inl (KeyError "auth_code_flow")) ∧
   session st !! "auth_code_flow" = None) ∨
  session out.1 !! "auth_code_flow" = None.
Proof.
  unfold authorized. unfold mbind at 1, M_bind at 1. unfold session_pop.
  destruct (session st !! "auth_code_flow") as [flow|] eqn:Hflow;
    [right|by left].
  cases; apply lookup_delete_eq.
Qed.

(** The two protected views write neither of the two entries. *)
Lemma graph_keeps st :
  session (graph L R cfg st).1 !! "user" = session st !! "user" ∧
  session (graph L R cfg st).1 !! "auth_code_flow"
    = session st !! "auth_code_flow".
Proof. cases; done. Qed.

Lemma admin_keeps st : session (admin L st).1 = session st.
Proof. cases; done. Qed.

Lemma logout_removes_user st : session (logout st).1 !! "user" = None.
Proof. cases. apply lookup_delete_eq. Qed.

Lemma handle_preserves_exclusive req (s : gmap string pyval) :
  exclusive s → exclusive (session (handle L R cfg req s).1).
Proof.
  intros Hs. unfold handle, dispatch.
  destruct (view_function L R cfg req (start s)) as [st r] eqn:Hview.
  assert (Hst : exclusive (session st)).
  { unfold view_function in Hview. destruct (url_rule req).
    - unfold index, mret, M_ret in Hview. by simplify_eq.
    - pose proof (authorized_consumes_flow req (start s)) as Hc.
      simpl in Hc. rewrite Hview in Hc.
      destruct Hc as [[Heq _]|Hnone]; [by simplify_eq|].
      intros [[? Hsome] _]. simpl in Hnone. congruence.
    - pose proof (graph_keeps (start s)) as [Hu Hf].
      rewrite Hview in Hu, Hf. unfold exclusive. simpl in *.
      by rewrite Hu, Hf.
    - pose proof (admin_keeps (start s)) as Hk. rewrite Hview in Hk.
      simpl in Hk. by rewrite Hk.
    - pose proof (logout_removes_user (start s)) as Hk. rewrite Hview in Hk.
      intros [_ [? Hsome]]. simpl in Hk. congruence. }
  destruct r as [e|resp]; [|done]. destruct e; try done.
  intros [_ [? Hsome]].
  by rewrite initiate_auth_code_flow_removes_user in Hsome.
Qed.

End exclusion.

(** C8: no session a browser can reach, from the empty session through any
    sequence of requests to any of the routes (so after a flow initiation, a
    callback, /graph, /admin or logout, completed or failed), holds a
    pending-flow record and a user record at once. *)
Theorem pending_flow_and_user_exclusive (s : gmap string pyval) :
  reachable s → exclusive s.
Proof.
  induction 1 as [|L R cfg req s _ IH].
  - intros [[? Hsome] _]. by rewrite lookup_empty in Hsome.
  - by apply handle_preserves_exclusive.
Qed.

(** * The properties at work on the small identity provider *)

(** An unauthenticated visit to /admin begins a flow that remembers /admin. *)
Lemma protected_route_without_user_begins_flow_witness :
  (Demo.run Admin [] ∅).2 = inr (Redirect "https://login.example/authorize") ∧
  session (Demo.run Admin [] ∅).1 !! "auth_code_flow" =
    Some (PDict [("auth_uri", PStr "https://login.example/authorize");
                 ("state", PStr "s-1");
                 ("redirect_uri", PStr "http://localhost:5000/auth/redirect");
                 ("post_sign_in_url", PStr "/admin")]).
Proof.
  edestruct (protected_route_without_user_begins_flow
               Demo.lib Demo.http Demo.cfg (Demo.get Admin []) ∅)
    as (Hresp & Hflow & _ & _);
    [right; reflexivity | reflexivity | reflexivity | reflexivity
    | reflexivity |].
  split; [exact Hresp | exact Hflow].
Defined.

(** The callback that follows signs the user in and goes back to /admin. *)
Lemma callback_success_signs_in_witness :
  let pending := session (Demo.run Admin [] ∅).1 in
  let out := Demo.run Authorized [("code", PStr "c-1")] pending in
  out.2 = inr (Redirect "/admin") ∧
  session out.1 !! "token_cache" = Some (PStr "{alice}") ∧
  session out.1 !! "user" =
    Some (PDict [("id_token", PStr "id-token");
                 ("id_token_claims",
                   PDict [("name", PStr "alice");
                          ("roles", PList [PStr "reader"])])]) ∧
  session out.1 !! "auth_code_flow" = None.
Proof.
  intros pending out.
  edestruct (callback_success_signs_in Demo.lib Demo.http Demo.cfg
               (Demo.get Authorized [("code", PStr "c-1")]) pending)
    as (Hresp & Hcache & _ & Huser & Hflow);
    [reflexivity | vm_compute; reflexivity | reflexivity | reflexivity
    | reflexivity | reflexivity | reflexivity | reflexivity
    | intros [[|a t] b]; reflexivity |].
  exact (conj Hresp (conj Hcache (conj Huser Hflow))).
Defined.

(** A callback on a fresh session fails at the pop. *)
Lemma callback_without_flow_exchanges_nothing_witness :
  let out := Demo.run Authorized [("code", PStr "c-1")] ∅ in
  out.2 = inl (KeyError "auth_code_flow") ∧ session out.1 = ∅ ∧
  trace out.1 = [] ∧ exchanges (trace out.1) = false.
Proof.
  apply (callback_without_flow_exchanges_nothing Demo.lib Demo.http Demo.cfg
           (Demo.get Authorized [("code", PStr "c-1")]) ∅);
    reflexivity.
Defined.

(** C3 fails as stated: a callback on a session without pending flow is not
    handled as an unauthenticated request.  The begin-flow handler would
    answer with the redirect to the authorization endpoint and store a
    pending flow; the callback fails with KeyError and stores none. *)
Lemma callback_without_flow_is_not_restarted :
  let req := Demo.get Authorized [("code", PStr "c-1")] in
  let out := handle Demo.lib Demo.http Demo.cfg req ∅ in
  let restart :=
    initiate_auth_code_flow Demo.lib Demo.cfg req (Unauthorized "") (start ∅) in
  restart.2 = inr (Redirect "https://login.example/authorize") ∧
  is_Some (session restart.1 !! "auth_code_flow") ∧
  out.2 = inl (KeyError "auth_code_flow") ∧
  out.2 ≠ restart.2 ∧
  session out.1 !! "auth_code_flow" = None.
Proof.
  vm_compute. repeat split; [by eexists | discriminate].
Qed.

(** A signed-in reader is refused on /admin. *)
Lemma admin_without_role_is_forbidden_witness :
  let s := Demo.signed_in "id-token" [PStr "reader"] "{alice}" in
  let out := Demo.run Admin [] s in
  out.2 = inl (Forbidden "User is missing a required role.") ∧
  session out.1 = s ∧
  trace out.1 = [DecodeIdToken (PStr "id-token")].
Proof.
  intros s out.
  edestruct (admin_without_role_is_forbidden Demo.lib Demo.http Demo.cfg
               (Demo.get Admin []) s)
    as (Hresp & Hs & Htrace & _);
    [reflexivity | reflexivity | reflexivity | reflexivity | reflexivity
    | right; exists [PStr "reader"]; split;
      [reflexivity | apply existsb_py_eq_str; reflexivity] |].
  exact (conj Hresp (conj Hs Htrace)).
Defined.


(** The session after sign-in is reachable, so it holds no pending flow
    next to its user. *)
Lemma pending_flow_and_user_exclusive_witness :
  exclusive
    (session (Demo.run Authorized [("code", PStr "c-1")]
                (session (Demo.run Admin [] ∅).1)).1).
Proof.
  apply pending_flow_and_user_exclusive.
  apply reachable_request, reachable_request, reachable_new.
Defined.

(** A refresh during /graph changes the cache, and the field is rewritten. *)
Lemma graph_rewrites_token_cache_iff_changed_witness :
  let out := Demo.run Graph [] (Demo.signed_in "id-token" [] "{alice,expired}") in
  (assigns "token_cache" (trace out.1) = true ↔ true = true) ∧
  session out.1 !! "token_cache" = Some (PStr "{alice}").
Proof.
  intros out.
  edestruct (graph_rewrites_token_cache_iff_changed Demo.lib Demo.http Demo.cfg
               (Demo.get Graph []) (Demo.signed_in "id-token" [] "{alice,expired}"))
    as (Hiff & Hcache);
    [reflexivity | reflexivity | reflexivity | reflexivity | reflexivity
    | reflexivity | reflexivity | reflexivity | reflexivity | reflexivity |].
  split; [exact Hiff | exact Hcache].
Defined.

(** * Further properties of the views *)

Lemma existsb_py_eq_str_true s l :
  existsb (py_eq_str s) l = true ↔ PStr s ∈ l.
Proof.
  induction l as [|x l IH]; simpl.
  - split; [done|]. intros H. by apply elem_of_nil in H.
  - rewrite orb_true_iff, IH, elem_of_cons. split.
    + intros [Hx|Hl]; [left|by right]. destruct x; try done.
      simpl in Hx. apply String.eqb_eq in Hx. by subst.
    + intros [<-|Hl]; [left|by right]. simpl. apply String.eqb_refl.
Qed.

Section sign_in.
Variables (L : msal.Lib) (R : requests.Lib) (cfg : config).

(** A request the view refuses at its guard, answered by the handler. *)
Lemma handle_begin_flow req (s : gmap string pyval) client flow client' auth_uri :
  view_function L R cfg req (start s) = (start s, inl (Unauthorized "")) →
  msal.ConfidentialClientApplication (CLIENT_ID cfg) (AUTHORITY cfg) None None
    (default (PDict []) (s !! "msal_http_response_cache")) = inr client →
  msal.initiate_auth_code_flow client User_Read (url_for_external req Authorized)
    = inr (PDict flow, client') →
  dict_get "auth_uri" flow = Some (PStr auth_uri) →
  handle L R cfg req s =
    ({| session := flow_begun req flow (msal.http_cache_of client') s;
        trace :=
          [SessionPop "user"; NewClient;
           InitiateAuthCodeFlow (url_for_external req Authorized);
           SessionSet "auth_code_flow"
             (PDict (dict_set "post_sign_in_url"
                       (PStr (rule (url_rule req))) flow));
           SessionSet "msal_http_response_cache" (msal.http_cache_of client')] |},
     inr (Redirect auth_uri)).
Proof.
  intros Hview Hnew Hflow Huri. unfold handle, dispatch. rewrite Hview.
  by erewrite initiate_auth_code_flow_spec by eauto.
Qed.

Lemma hydrated_flow_begun req flow http_cache (s : gmap string pyval) :
  hydrated L (flow_begun req flow http_cache s) = hydrated L s.
Proof.
  unfold hydrated, flow_begun.
  by rewrite !lookup_insert_ne, lookup_delete_ne by done.
Qed.

(** X1: the two legs of the flow compose.  When a request to /graph or
    /admin without user entry has begun a flow, and the callback that
    follows on the session it left redeems its code, the callback redirects
    to the rule of the route requested first, the session then holds the
    user record and no pending flow. *)
Theorem sign_in_returns_to_requested_route
    req cb (s : gmap string pyval) client flow client' auth_uri
    tc client2 result client3 id_token claims :
  url_rule req = Graph ∨ url_rule req = Admin →
  url_rule cb = Authorized →
  s !! "user" = None →
  msal.ConfidentialClientApplication (CLIENT_ID cfg) (AUTHORITY cfg) None None
    (default (PDict []) (s !! "msal_http_response_cache")) = inr client →
  msal.initiate_auth_code_flow client User_Read (url_for_external req Authorized)
    = inr (PDict flow, client') →
  dict_get "auth_uri" flow = Some (PStr auth_uri) →
  hydrated L s = inr tc →
  msal.ConfidentialClientApplication (CLIENT_ID cfg) (AUTHORITY cfg)
    (Some (CLIENT_CREDENTIAL cfg)) (Some tc) (msal.http_cache_of client')
    = inr client2 →
  msal.acquire_token_by_auth_code_flow client2
    (PDict (dict_set "post_sign_in_url" (PStr (rule (url_rule req))) flow))
    (args cb) = inr (PDict result, client3) →
  dict_get "id_token" result = Some id_token →
  dict_get "id_token_claims" result = Some claims →
  let first := handle L R cfg req s in
  let second := handle L R cfg cb (session first.1) in
  first.2 = inr (Redirect auth_uri) ∧
  second.2 = inr (Redirect (rule (url_rule req))) ∧
  session second.1 !! "user"
    = Some (PDict [("id_token", id_token); ("id_token_claims", claims)]) ∧
  session second.1 !! "auth_code_flow" = None.
Proof.
  intros Hroute Hcb Huser Hnew Hflow Huri Hhyd Hnew2 Hex Hid Hclaims.
  assert (Hview : view_function L R cfg req (start s)
                  = (start s, inl (Unauthorized ""))).
  { unfold view_function. destruct Hroute as [-> | ->].
    - apply graph_guard. left. simpl. by rewrite Huser.
    - apply admin_guard. simpl. by rewrite Huser. }
  intros first second. subst second first.
  erewrite handle_begin_flow by eauto. simpl. split; [done|].
  set (pending := flow_begun req flow (msal.http_cache_of client') s).
  destruct (flow_begun_lookup req flow (msal.http_cache_of client') s)
    as [_ Hpending]. fold pending in Hpending.
  assert (Hhttp : pending !! "msal_http_response_cache"
                  = Some (msal.http_cache_of client'))
    by apply lookup_insert_eq.
  unfold handle, dispatch, view_function. rewrite Hcb.
  erewrite authorized_exchange;
    [ | exact Hpending | subst pending; by rewrite hydrated_flow_begun
      | rewrite Hhttp; exact Hnew2 | exact Hex ].
  unfold_M. simpl. unfold py_getitem. rewrite Hid, Hclaims. simpl.
  rewrite dict_get_set_eq. simpl. repeat split.
  - apply lookup_insert_eq.
  - rewrite !lookup_insert_ne by done. apply lookup_delete_eq.
Qed.

(** X2: the handler that begins a flow writes three session fields only -
    user, auth_code_flow and msal_http_response_cache - whatever the library
    answers and wherever the handler stops; in particular a token cache
    stored earlier survives a new sign-in. *)
Theorem initiate_auth_code_flow_frame req error st k :
  k ≠ "user" → k ≠ "auth_code_flow" → k ≠ "msal_http_response_cache" →
  session (initiate_auth_code_flow L cfg req error st).1 !! k = session st !! k.
Proof.
  intros Hu Hf Hh. run.
  repeat (case_match; simpl; simplify_eq); simpl;
    rewrite ?lookup_insert_ne by done; by rewrite ?lookup_delete_ne by done.
Qed.

End sign_in.

(** X3: logout signs the browser out.  On the session logout leaves, /graph
    and /admin both refuse at their guard with Unauthorized, a callback
    finds no pending flow, and a second logout changes nothing. *)
Theorem logout_signs_out L R cfg h q (s : gmap string pyval) :
  let get r := {| url_rule := r; host_url := h; args := q |} in
  let out := session (handle L R cfg (get Logout) s).1 in
  view_function L R cfg (get Graph) (start out)
    = (start out, inl (Unauthorized "")) ∧
  view_function L R cfg (get Admin) (start out)
    = (start out, inl (Unauthorized "")) ∧
  handle L R cfg (get Authorized) out
    = (start out, inl (KeyError "auth_code_flow")) ∧
  session (handle L R cfg (get Logout) out).1 = out.
Proof.
  intros get out.
  assert (Hu : out !! "user" = None).
  { subst out. run. rewrite !lookup_delete_ne by done. apply lookup_delete_eq. }
  assert (Hf : out !! "auth_code_flow" = None).
  { subst out. run. rewrite lookup_delete_ne by done. apply lookup_delete_eq. }
  assert (Ht : out !! "token_cache" = None).
  { subst out. run. apply lookup_delete_eq. }
  repeat split.
  - apply graph_guard. left. simpl. by rewrite Hu.
  - apply admin_guard. simpl. by rewrite Hu.
  - unfold handle, dispatch, view_function, authorized. simpl.
    unfold mbind at 1, M_bind at 1. unfold session_pop. simpl. by rewrite Hf.
  - unfold handle, dispatch, view_function. simpl. unfold logout. unfold_M.
    simpl. rewrite (delete_id out "user") by done.
    rewrite (delete_id out "auth_code_flow") by done. by apply delete_id.
Qed.

Section downstream.
Variables (L : msal.Lib) (R : requests.Lib) (cfg : config).

(** X4: the success path of /graph.  When silent acquisition returns a
    result with an access token and the downstream API answers, the view
    calls the API once, with that token, after the session caches have been
    written, renders the graph page with the API's answer, stores the
    client's HTTP cache and leaves the user record alone. *)
Theorem graph_renders_downstream_response
    req (s : gmap string pyval) user tok decoded blob tc client
    account others client1 result client2 access_token response :
  url_rule req = Graph →
  s !! "user" = Some user →
  py_getitem user "id_token" = inr tok →
  msal.decode_id_token tok = inr decoded →
  s !! "token_cache" = Some blob →
  truthy blob = true →
  msal.deserialize msal.SerializableTokenCache blob = inr tc →
  msal.ConfidentialClientApplication (CLIENT_ID cfg) (AUTHORITY cfg)
    (Some (CLIENT_CREDENTIAL cfg)) (Some tc)
    (default (PDict []) (s !! "msal_http_response_cache")) = inr client →
  msal.get_accounts client = inr (account :: others, client1) →
  msal.acquire_token_silent client1 User_Read account = inr (result, client2) →
  py_getitem result "access_token" = inr access_token →
  requests.get_json "https://graph.microsoft.com/v1.0/me" access_token
    = inr response →
  let out := handle L R cfg req s in
  out.2 = inr (Render "authenticated/graph.html"
                 (PDict [("graphCallResponse", response)])) ∧
  trace out.1 =
    ([DecodeIdToken tok; NewClient; GetAccounts; AcquireTokenSilent account] ++
     (if msal.has_state_changed (msal.token_cache_of client2)
      then [SessionSet "token_cache"
              (msal.serialize (msal.token_cache_of client2))]
      else []) ++
     [SessionSet "msal_http_response_cache" (msal.http_cache_of client2);
      RequestsGet "https://graph.microsoft.com/v1.0/me" access_token])%list ∧
  session out.1 !! "msal_http_response_cache"
    = Some (msal.http_cache_of client2) ∧
  session out.1 !! "user" = Some user.
Proof.
  intros Hroute Hu Ht Hd Hb Htb Hde Hnew Hacc Hsil Hat Hget out.
  subst out. unfold handle, dispatch, view_function. rewrite Hroute.
  erewrite graph_silent by eauto. unfold graph_after_silent. unfold_M.
  destruct (msal.has_state_changed (msal.token_cache_of client2)); simpl;
    rewrite Hat; simpl; rewrite Hget; simpl;
    (split; [done|]); (split; [done|]);
    rewrite lookup_insert_eq; (split; [done|]);
    by rewrite !lookup_insert_ne by done.
Qed.

(** X5: a failure of the downstream call is passed on as it is.  The
    exception [requests] raises ends the request after the one call; no flow
    is begun and nothing is retried, and the caches written before the call
    stay written. *)
Theorem graph_downstream_failure_propagates
    req (s : gmap string pyval) user tok decoded blob tc client
    account others client1 result client2 access_token e :
  url_rule req = Graph →
  s !! "user" = Some user →
  py_getitem user "id_token" = inr tok →
  msal.decode_id_token tok = inr decoded →
  s !! "token_cache" = Some blob →
  truthy blob = true →
  msal.deserialize msal.SerializableTokenCache blob = inr tc →
  msal.ConfidentialClientApplication (CLIENT_ID cfg) (AUTHORITY cfg)
    (Some (CLIENT_CREDENTIAL cfg)) (Some tc)
    (default (PDict []) (s !! "msal_http_response_cache")) = inr client →
  msal.get_accounts client = inr (account :: others, client1) →
  msal.acquire_token_silent client1 User_Read account = inr (result, client2) →
  py_getitem result "access_token" = inr access_token →
  requests.get_json "https://graph.microsoft.com/v1.0/me" access_token = inl e →
  (∀ d, e ≠ Unauthorized d) →
  let out := handle L R cfg req s in
  out.2 = inl e ∧
  trace out.1 =
    ([DecodeIdToken tok; NewClient; GetAccounts; AcquireTokenSilent account] ++
     (if msal.has_state_changed (msal.token_cache_of client2)
      then [SessionSet "token_cache"
              (msal.serialize (msal.token_cache_of client2))]
      else []) ++
     [SessionSet "msal_http_response_cache" (msal.http_cache_of client2);
      RequestsGet "https://graph.microsoft.com/v1.0/me" access_token])%list ∧
  session out.1 !! "auth_code_flow" = s !! "auth_code_flow" ∧
  session out.1 !! "user" = Some user ∧
  session out.1 !! "msal_http_response_cache"
    = Some (msal.http_cache_of client2).
Proof.
  intros Hroute Hu Ht Hd Hb Htb Hde Hnew Hacc Hsil Hat Hget Hne out.
  subst out. unfold handle, dispatch, view_function. rewrite Hroute.
  erewrite graph_silent by eauto. unfold graph_after_silent. unfold_M.
  destruct (msal.has_state_changed (msal.token_cache_of client2)); simpl;
    rewrite Hat; simpl; rewrite Hget; simpl;
    (destruct e; try (by destruct (Hne description)); simpl);
    (split; [done|]); (split; [done|]);
    rewrite lookup_insert_eq;
    by rewrite !lookup_insert_ne by done.
Qed.

End downstream.

Section validation.
Variables (L : msal.Lib) (R : requests.Lib) (cfg : config).

Lemma check_id_token_propagates description st user tok e :
  session st !! "user" = Some user →
  py_getitem user "id_token" = inr tok →
  msal.decode_id_token tok = inl e →
  check_id_token L description st =
    ({| session := session st; trace := trace st ++ [DecodeIdToken tok] |},
     inl (if is_RuntimeError e then Unauthorized description else e)).
Proof. intros Hu Ht Hd. run. rewrite Hu, Ht. simpl. by rewrite Hd. Qed.

(** X6: only an exception of the RuntimeError family from the ID-token
    validation leads to a new sign-in.  Any exception [decode_id_token]
    raises that is no instance of RuntimeError (nor of a subclass of it)
    ends the request as it is, on /admin and on /graph once its guard has
    passed: the session is untouched, no client is built and no flow is
    begun. *)
Theorem other_decode_errors_propagate req (s : gmap string pyval) user tok e :
  url_rule req = Admin ∨
  (url_rule req = Graph ∧ truthy (default PNone (s !! "token_cache")) = true) →
  s !! "user" = Some user →
  py_getitem user "id_token" = inr tok →
  msal.decode_id_token tok = inl e →
  is_RuntimeError e = false →
  (∀ d, e ≠ Unauthorized d) →
  handle L R cfg req s =
    ({| session := s; trace := [DecodeIdToken tok] |}, inl e).
Proof.
  intros Hroute Hu Ht Hd Hne Hnu.
  pose proof (py_getitem_truthy _ _ _ Ht) as Htruthy.
  unfold handle, dispatch, view_function.
  destruct Hroute as [-> | [-> Htc]].
  - unfold admin. unfold mbind at 1 2, M_bind at 1 2. unfold_M. simpl.
    rewrite Hu. simpl. rewrite Htruthy. simpl. fold (start s).
    erewrite (check_id_token_propagates _ (start s)) by eauto.
    rewrite Hne. simpl.
    destruct e; try done. by destruct (Hnu description).
  - unfold graph. unfold mbind at 1 2 3, M_bind at 1 2 3. unfold_M. simpl.
    rewrite Hu, Htc. simpl. rewrite Htruthy. simpl. fold (start s).
    erewrite (check_id_token_propagates _ (start s)) by eauto.
    rewrite Hne. simpl.
    destruct e; try done. by destruct (Hnu description).
Qed.

(** X7: /graph validates before it does anything else.  Once the guard has
    passed, the first thing the request does is decode the ID token of the
    session's user record: no client is built, no token acquired, no flow
    begun and no session field written before that, whatever the
    collaborators answer afterwards. *)
Theorem graph_validates_first req (s : gmap string pyval) user tok blob :
  url_rule req = Graph →
  s !! "user" = Some user →
  py_getitem user "id_token" = inr tok →
  s !! "token_cache" = Some blob →
  truthy blob = true →
  ∃ tr, trace (handle L R cfg req s).1 = DecodeIdToken tok :: tr.
Proof.
  intros Hroute Hu Ht Hb Htb.
  pose proof (py_getitem_truthy _ _ _ Ht) as Htruthy.
  unfold handle, dispatch, view_function. rewrite Hroute. run.
  rewrite Hu, Hb. simpl. rewrite Htruthy, Htb. simpl.
  rewrite Hu. simpl. rewrite Ht. simpl.
  repeat (case_match; simpl in *; simplify_eq); simpl; eauto.
Qed.

(** X8: /graph writes two session fields only, token_cache and
    msal_http_response_cache.  Whatever the view does and wherever it stops,
    every other field - the user record and a pending flow among them - is
    as it was. *)
Theorem graph_frame st k :
  k ≠ "token_cache" → k ≠ "msal_http_response_cache" →
  session (graph L R cfg st).1 !! k = session st !! k.
Proof.
  intros Ht Hh. run.
  repeat (case_match; simpl; simplify_eq); simpl;
    by rewrite ?lookup_insert_ne by done.
Qed.

(** X9: /admin has no effect of its own.  The view writes no session field
    and calls no collaborator except for the one validation of the ID
    token: it builds no client and acquires no token. *)
Theorem admin_has_no_effects st :
  session (admin L st).1 = session st ∧
  (trace (admin L st).1 = trace st ∨
   ∃ tok, trace (admin L st).1 = (trace st ++ [DecodeIdToken tok])%list).
Proof.
  run. repeat (case_match; simpl; simplify_eq); simpl; eauto.
Qed.

End validation.

Section role_check.
Variables (L : msal.Lib) (R : requests.Lib) (cfg : config).

(** /admin up to the role check: what is left is the membership test on the
    roles entry of the stored claims. *)
Lemma admin_checked req (s : gmap string pyval) user tok decoded claims roles :
  url_rule req = Admin →
  s !! "user" = Some (PDict user) →
  dict_get "id_token" user = Some tok →
  msal.decode_id_token tok = inr decoded →
  dict_get "id_token_claims" user = Some (PDict claims) →
  dict_get "roles" claims = Some roles →
  handle L R cfg req s =
    ({| session := s; trace := [DecodeIdToken tok] |},
     match py_contains "admin" roles with
     | inl e => inl e
     | inr true =>
         inr (Render "authenticated/admin.html"
                (PDict [("graphCallResponse", PDict claims)]))
     | inr false => inl (Forbidden "User is missing a required role.")
     end).
Proof.
  intros Hroute Hu Ht Hd Hc Hroles.
  unfold handle, dispatch, view_function. rewrite Hroute.
  unfold admin. unfold mbind at 1 2, M_bind at 1 2. unfold_M. simpl.
  rewrite Hu. destruct user as [|entry user']; [discriminate|]. simpl.
  fold (start s).
  erewrite (check_id_token_returns _ _ (start s)); eauto;
    [|unfold py_getitem; by rewrite Ht].
  simpl. unfold_M. simpl. rewrite Hu. unfold py_getitem. rewrite Hc. simpl.
  rewrite Hroles. simpl.
  destruct roles as [| | |t|l|d]; simpl; try done.
  - by destruct (str_contains "admin" t).
  - by destruct (existsb (py_eq_str "admin") l).
  - by destruct (bool_decide (is_Some (dict_get "admin" d))).
Qed.

(** X10: /admin lets an administrator in.  With a user record whose ID
    token decodes and whose claims carry a roles array containing "admin",
    the view renders the admin page with the claims stored in the session
    (not the freshly decoded ones) and leaves the session untouched. *)
Theorem admin_with_role_renders_claims
    req (s : gmap string pyval) user tok decoded claims roles :
  url_rule req = Admin →
  s !! "user" = Some (PDict user) →
  dict_get "id_token" user = Some tok →
  msal.decode_id_token tok = inr decoded →
  dict_get "id_token_claims" user = Some (PDict claims) →
  dict_get "roles" claims = Some (PList roles) →
  PStr "admin" ∈ roles →
  handle L R cfg req s =
    ({| session := s; trace := [DecodeIdToken tok] |},
     inr (Render "authenticated/admin.html"
            (PDict [("graphCallResponse", PDict claims)]))).
Proof.
  intros Hroute Hu Ht Hd Hc Hroles Hin.
  erewrite admin_checked by eauto. simpl.
  apply existsb_py_eq_str_true in Hin. by rewrite Hin.
Qed.

(** X11: the role check is Python's [in], so on a roles claim that is a
    string instead of an array it is a substring test: /admin is granted
    exactly when "admin" occurs somewhere in that string, and refused with
    Forbidden otherwise. *)
Theorem admin_role_check_on_string_is_substring
    req (s : gmap string pyval) user tok decoded claims roles :
  url_rule req = Admin →
  s !! "user" = Some (PDict user) →
  dict_get "id_token" user = Some tok →
  msal.decode_id_token tok = inr decoded →
  dict_get "id_token_claims" user = Some (PDict claims) →
  dict_get "roles" claims = Some (PStr roles) →
  (handle L R cfg req s).2 =
    if str_contains "admin" roles
    then inr (Render "authenticated/admin.html"
                (PDict [("graphCallResponse", PDict claims)]))
    else inl (Forbidden "User is missing a required role.").
Proof.
  intros Hroute Hu Ht Hd Hc Hroles.
  erewrite admin_checked by eauto. simpl.
  by destruct (str_contains "admin" roles).
Qed.

End role_check.

Section callback_edges.
Variables (L : msal.Lib) (R : requests.Lib) (cfg : config).

(** X12: a code exchange that comes back without an ID token (the error
    result of the library) signs nobody in.  The callback stops with
    KeyError on [result["id_token"]]; by then the pending flow is consumed
    and the token cache and HTTP cache are already overwritten, but the
    user entry is as it was and nothing redirects. *)
Theorem callback_error_result_stores_no_user
    req (s : gmap string pyval) flow tc client result client' :
  url_rule req = Authorized →
  s !! "auth_code_flow" = Some flow →
  hydrated L s = inr tc →
  msal.ConfidentialClientApplication (CLIENT_ID cfg) (AUTHORITY cfg)
    (Some (CLIENT_CREDENTIAL cfg)) (Some tc)
    (default (PDict []) (s !! "msal_http_response_cache")) = inr client →
  msal.acquire_token_by_auth_code_flow client flow (args req)
    = inr (PDict result, client') →
  dict_get "id_token" result = None →
  let out := handle L R cfg req s in
  out.2 = inl (KeyError "id_token") ∧
  session out.1 !! "user" = s !! "user" ∧
  session out.1 !! "auth_code_flow" = None ∧
  session out.1 !! "token_cache"
    = Some (msal.serialize (msal.token_cache_of client')) ∧
  session out.1 !! "msal_http_response_cache"
    = Some (msal.http_cache_of client').
Proof.
  intros Hroute Hflow Hhyd Hnew Hex Hid out.
  subst out. unfold handle, dispatch, view_function. rewrite Hroute.
  erewrite authorized_exchange by eauto. unfold_M. simpl. rewrite Hid. simpl.
  repeat split.
  - rewrite !lookup_insert_ne by done. by rewrite lookup_delete_ne.
  - rewrite !lookup_insert_ne by done. apply lookup_delete_eq.
  - rewrite lookup_insert_ne by done. apply lookup_insert_eq.
  - apply lookup_insert_eq.
Qed.

(** X13: a pending flow is used once.  Whatever a callback did - succeeded,
    failed in the exchange, or found no flow at all - the callback view run
    again on the session it left stops with KeyError at the pop, before any
    client is built, and leaves that session as it is. *)
Theorem callback_is_single_use req1 req2 st :
  let st1 := (authorized L cfg req1 st).1 in
  authorized L cfg req2 st1 = (st1, inl (KeyError "auth_code_flow")).
Proof.
  intros st1.
  assert (Hnone : session st1 !! "auth_code_flow" = None).
  { destruct (authorized_consumes_flow L cfg req1 st) as [[Heq Hn]|Hn].
    - subst st1. by rewrite Heq.
    - done. }
  unfold authorized. unfold mbind at 1, M_bind at 1. unfold session_pop.
  by rewrite Hnone.
Qed.

End callback_edges.

(** ** The records in a reachable session *)

Lemma records_step_refl s : records_step s s.
Proof. split; by left. Qed.

Lemma records_step_trans s1 s2 s3 :
  records_step s1 s2 → records_step s2 s3 → records_step s1 s3.
Proof.
  intros [Hu1 Hf1] [Hu2 Hf2]. split.
  - destruct Hu2 as [->|[?|?]]; auto.
  - destruct Hf2 as [->|[?|?]]; auto.
Qed.

Lemma well_formed_step s s' :
  well_formed s → records_step s s' → well_formed s'.
Proof.
  intros [Hu Hf] [Hu' Hf']. split; intros v Hv.
  - destruct Hu' as [Heq|[Hnone|(w & Hw & Hrec)]].
    + apply Hu. by rewrite <- Heq.
    + congruence.
    + by simplify_eq.
  - destruct Hf' as [Heq|[Hnone|(w & Hw & Hrec)]].
    + apply Hf. by rewrite <- Heq.
    + congruence.
    + by simplify_eq.
Qed.

Lemma logout_clears_records st :
  session (logout st).1 !! "user" = None ∧
  session (logout st).1 !! "auth_code_flow" = None.
Proof.
  run. split.
  - rewrite !lookup_delete_ne by done. apply lookup_delete_eq.
  - rewrite lookup_delete_ne by done. apply lookup_delete_eq.
Qed.

Section records.
Variables (L : msal.Lib) (R : requests.Lib) (cfg : config).

Lemma initiate_auth_code_flow_records req error st :
  records_step (session st)
    (session (initiate_auth_code_flow L cfg req error st).1).
Proof.
  split.
  - right; left. apply initiate_auth_code_flow_removes_user.
  - run.
    repeat (case_match; simpl; simplify_eq); simpl;
      rewrite ?lookup_insert_ne by done; rewrite ?lookup_delete_ne by done;
      try (by left);
      right; right; rewrite lookup_insert_eq; eexists; (split; [done|]);
      match goal with
      | H : py_setitem ?p _ _ = inr _ |- _ =>
          destruct p; simpl in H; simplify_eq
      end;
      eexists _, (url_rule req); (split; [done|]); apply dict_get_set_eq.
Qed.

Lemma authorized_records req st :
  records_step (session st) (session (authorized L cfg req st).1).
Proof.
  split.
  - run.
    repeat (case_match; simpl; simplify_eq); simpl;
      rewrite ?lookup_insert_ne by done; rewrite ?lookup_delete_ne by done;
      try (by left);
      right; right; rewrite lookup_insert_eq; eexists; (split; [done|]);
      by eexists _, _.
  - destruct (authorized_consumes_flow L cfg req st) as [[-> _]|Hnone].
    + by left.
    + by right; left.
Qed.

Lemma handle_records req (s : gmap string pyval) :
  records_step s (session (handle L R cfg req s).1).
Proof.
  unfold handle, dispatch.
  destruct (view_function L R cfg req (start s)) as [st r] eqn:Hview.
  assert (Hst : records_step s (session st)).
  { unfold view_function in Hview. destruct (url_rule req).
    - unfold index, mret, M_ret in Hview. simplify_eq.
      apply records_step_refl.
    - pose proof (authorized_records req (start s)) as H.
      by rewrite Hview in H.
    - pose proof (graph_keeps L R cfg (start s)) as [Hu Hf].
      rewrite Hview in Hu, Hf. split; by left.
    - pose proof (admin_keeps L (start s)) as Hk. rewrite Hview in Hk.
      simpl in Hk. rewrite Hk. apply records_step_refl.
    - pose proof (logout_clears_records (start s)) as [Hu Hf].
      rewrite Hview in Hu, Hf. split; by right; left. }
  destruct r as [e|resp]; [|done]. destruct e; try done.
  eapply records_step_trans; [exact Hst|].
  apply initiate_auth_code_flow_records.
Qed.

End records.

Lemma reachable_well_formed (s : gmap string pyval) :
  reachable s → well_formed s.
Proof.
  induction 1 as [|L R cfg req s _ IH].
  - split; intros v Hv; by rewrite lookup_empty in Hv.
  - eapply well_formed_step; [exact IH|apply handle_records].
Qed.

(** X14: the user record of a session is always the one the callback
    stored.  In every session a browser can reach, a user entry, when
    present, is a dict with exactly the keys id_token and id_token_claims;
    so it is truthy, and the subscripts [session["user"]["id_token"]] and
    [session["user"]["id_token_claims"]] of the protected views never raise
    KeyError or TypeError. *)
Theorem reachable_user_record (s : gmap string pyval) v :
  reachable s →
  s !! "user" = Some v →
  truthy v = true ∧
  ∃ id_token claims,
    v = PDict [("id_token", id_token); ("id_token_claims", claims)] ∧
    py_getitem v "id_token" = inr id_token ∧
    py_getitem v "id_token_claims" = inr claims.
Proof.
  intros Hreach Hv.
  destruct (reachable_well_formed s Hreach) as [Hu _].
  destruct (Hu v Hv) as (id_token & claims & ->).
  split; [done|]. by exists id_token, claims.
Qed.

(** The target of the callback's redirect is read from the pending flow. *)
Lemma authorized_response L cfg req (s : gmap string pyval) d target resp :
  s !! "auth_code_flow" = Some (PDict d) →
  dict_get "post_sign_in_url" d = Some (PStr target) →
  (authorized L cfg req (start s)).2 = inr resp →
  resp = Redirect target.
Proof.
  intros Hflow Htarget Hresp.
  unfold authorized in Hresp. unfold mbind at 1, M_bind at 1 in Hresp.
  unfold session_pop, start in Hresp. simpl in Hresp. rewrite Hflow in Hresp.
  revert Hresp. run. unfold py_getitem. rewrite Htarget.
  repeat (case_match; simpl; simplify_eq); simpl; intros; by simplify_eq.
Qed.

(** X15: the callback redirects only into the application, to the route
    recorded when the flow began.  On every session a browser can reach, a
    callback view that returns a response finds a pending flow in the
    session whose post_sign_in_url is the rule of one of the application's
    routes, and returns the redirect to that rule; the query parameters,
    the configuration and the identity provider's answers do not influence
    the target: every callback on that session that returns a response
    returns this one. *)
Theorem callback_redirects_to_own_route L cfg req (s : gmap string pyval) resp :
  reachable s →
  (authorized L cfg req (start s)).2 = inr resp →
  ∃ d r,
    s !! "auth_code_flow" = Some (PDict d) ∧
    dict_get "post_sign_in_url" d = Some (PStr (rule r)) ∧
    resp = Redirect (rule r) ∧
    ∀ L' cfg' req' resp',
      (authorized L' cfg' req' (start s)).2 = inr resp' → resp' = resp.
Proof.
  intros Hreach Hresp.
  destruct (reachable_well_formed s Hreach) as [_ Hf].
  destruct (s !! "auth_code_flow") as [flow|] eqn:Hflow.
  - destruct (Hf flow eq_refl) as (d & r & -> & Htarget).
    exists d, r. split; [done|]. split; [done|].
    pose proof (authorized_response L cfg req s d (rule r) resp
                  Hflow Htarget Hresp) as ->.
    split; [done|]. intros L' cfg' req' resp' Hresp'.
    by eapply authorized_response.
  - unfold authorized in Hresp. unfold mbind at 1, M_bind at 1 in Hresp.
    unfold session_pop, start in Hresp. simpl in Hresp.
    by rewrite Hflow in Hresp.
Qed.

(** X16: an expired session is signed out even when the new sign-in cannot
    start.  On /graph or /admin with an ID token that no longer decodes, if
    the library raises while the client is built, the request ends with
    that exception and the stale user entry is gone all the same, because
    the handler drops it first; no flow is stored, and every field other
    than the user entry and the HTTP cache, which the client was handed, is
    as it was. *)
Theorem failed_begin_flow_still_signs_out
    L R cfg req (s : gmap string pyval) user tok e :
  url_rule req = Graph ∨ url_rule req = Admin →
  s !! "user" = Some user →
  py_getitem user "id_token" = inr tok →
  msal.decode_id_token tok = inl RuntimeError →
  msal.ConfidentialClientApplication (CLIENT_ID cfg) (AUTHORITY cfg) None None
    (default (PDict []) (s !! "msal_http_response_cache")) = inl e →
  let out := handle L R cfg req s in
  out.2 = inl e ∧
  session out.1 !! "user" = None ∧
  session out.1 !! "auth_code_flow" = s !! "auth_code_flow" ∧
  session out.1 !! "token_cache" = s !! "token_cache" ∧
  ∀ k, k ≠ "user" → k ≠ "msal_http_response_cache" →
       session out.1 !! k = s !! k.
Proof.
  intros Hroute Hu Ht Hd Hnew out.
  destruct (stale_token_unauthorized L R cfg req s user tok)
    as (st & d & Hview & Hst); try done.
  subst out. unfold handle, dispatch. rewrite Hview.
  unfold initiate_auth_code_flow. unfold_M. simpl.
  rewrite lookup_delete_ne by done. rewrite Hst, Hnew. simpl.
  split; [done|]. split; [apply lookup_delete_eq|].
  split; [by rewrite lookup_delete_ne|].
  split; [by rewrite lookup_delete_ne|].
  intros k Hk _. by rewrite lookup_delete_ne.
Qed.

(** * The further properties on the small identity provider *)

Lemma sign_in_returns_to_requested_route_witness :
  let first := Demo.run Graph [] ∅ in
  let second := Demo.run Authorized [("code", PStr "c-1")] (session first.1) in
  first.2 = inr (Redirect "https://login.example/authorize") ∧
  second.2 = inr (Redirect "/graph") ∧
  session second.1 !! "auth_code_flow" = None.
Proof.
  intros first second.
  edestruct (sign_in_returns_to_requested_route Demo.lib Demo.http Demo.cfg
               (Demo.get Graph []) (Demo.get Authorized [("code", PStr "c-1")]) ∅)
    as (H1 & H2 & _ & H4);
    [left; reflexivity | reflexivity | reflexivity | reflexivity | reflexivity
    | reflexivity | reflexivity | reflexivity | reflexivity | reflexivity
    | reflexivity |].
  exact (conj H1 (conj H2 H4)).
Defined.

Lemma initiate_auth_code_flow_frame_witness :
  let s := Demo.signed_in "expired-id-token" [] "{alice}" in
  session (initiate_auth_code_flow Demo.lib Demo.cfg (Demo.get Graph [])
             (Unauthorized "") (start s)).1 !! "token_cache"
    = Some (PStr "{alice}").
Proof.
  intros s.
  rewrite (initiate_auth_code_flow_frame Demo.lib Demo.cfg (Demo.get Graph [])
             (Unauthorized "") (start s) "token_cache");
    [reflexivity | discriminate | discriminate | discriminate].
Defined.

Lemma graph_renders_downstream_response_witness :
  let out := Demo.run Graph [] (Demo.signed_in "id-token" [] "{alice}") in
  out.2 = inr (Render "authenticated/graph.html"
                 (PDict [("graphCallResponse",
                          PDict [("displayName", PStr "alice")])])) ∧
  session out.1 !! "msal_http_response_cache" = Some (PDict []).
Proof.
  intros out.
  edestruct (graph_renders_downstream_response Demo.lib Demo.http Demo.cfg
               (Demo.get Graph []) (Demo.signed_in "id-token" [] "{alice}"))
    as (H1 & _ & H3 & _);
    [reflexivity | reflexivity | reflexivity | reflexivity | reflexivity
    | reflexivity | reflexivity | reflexivity | reflexivity | reflexivity
    | reflexivity | reflexivity |].
  exact (conj H1 H3).
Defined.

Lemma graph_downstream_failure_propagates_witness :
  let out := handle Demo.lib Outage.http Demo.cfg (Demo.get Graph [])
               (Demo.signed_in "id-token" [] "{alice,expired}") in
  out.2 = inl (OtherError "ConnectionError") ∧
  session out.1 !! "auth_code_flow" = None.
Proof.
  intros out.
  edestruct (graph_downstream_failure_propagates Demo.lib Outage.http Demo.cfg
               (Demo.get Graph [])
               (Demo.signed_in "id-token" [] "{alice,expired}"))
    as (H1 & _ & H3 & _);
    [reflexivity | reflexivity | reflexivity | reflexivity | reflexivity
    | reflexivity | reflexivity | reflexivity | reflexivity | reflexivity
    | reflexivity | reflexivity | discriminate |].
  exact (conj H1 H3).
Defined.

Lemma other_decode_errors_propagate_witness :
  let s : gmap string pyval :=
    <["user" := PDict [("id_token", PInt 7); ("id_token_claims", PDict [])]]> ∅ in
  Demo.run Admin [] s =
    ({| session := s; trace := [DecodeIdToken (PInt 7)] |}, inl TypeError).
Proof.
  intros s.
  apply (other_decode_errors_propagate Demo.lib Demo.http Demo.cfg
           (Demo.get Admin []) s
           (PDict [("id_token", PInt 7); ("id_token_claims", PDict [])])
           (PInt 7) TypeError);
    [left; reflexivity | reflexivity | reflexivity | reflexivity
    | reflexivity | discriminate].
Defined.

Lemma graph_validates_first_witness :
  ∃ tr, trace (Demo.run Graph [] (Demo.signed_in "id-token" [] "{}")).1
        = DecodeIdToken (PStr "id-token") :: tr.
Proof.
  eapply (graph_validates_first Demo.lib Demo.http Demo.cfg (Demo.get Graph [])
            (Demo.signed_in "id-token" [] "{}"));
    reflexivity.
Defined.

Lemma graph_frame_witness :
  let s := Demo.signed_in "id-token" [] "{alice,expired}" in
  session (graph Demo.lib Demo.http Demo.cfg (start s)).1 !! "user"
    = s !! "user".
Proof.
  intros s.
  apply (graph_frame Demo.lib Demo.http Demo.cfg (start s) "user");
    discriminate.
Defined.

Lemma admin_with_role_renders_claims_witness :
  (Demo.run Admin [] (Demo.signed_in "id-token" [PStr "admin"] "{alice}")).2 =
    inr (Render "authenticated/admin.html"
           (PDict [("graphCallResponse",
                    PDict [("roles", PList [PStr "admin"])])])).
Proof.
  unfold Demo.run.
  erewrite (admin_with_role_renders_claims Demo.lib Demo.http Demo.cfg
              (Demo.get Admin [])
              (Demo.signed_in "id-token" [PStr "admin"] "{alice}"));
    [reflexivity | reflexivity | reflexivity | reflexivity | reflexivity
    | reflexivity | reflexivity | apply existsb_py_eq_str_true; reflexivity].
Defined.

Lemma admin_role_check_on_string_is_substring_witness :
  let s : gmap string pyval :=
    <["user" := PDict [("id_token", PStr "id-token");
                       ("id_token_claims",
                         PDict [("roles", PStr "not-an-administrator")])]]> ∅ in
  (Demo.run Admin [] s).2 =
    inr (Render "authenticated/admin.html"
           (PDict [("graphCallResponse",
                    PDict [("roles", PStr "not-an-administrator")])])).
Proof.
  intros s.
  apply (admin_role_check_on_string_is_substring Demo.lib Demo.http Demo.cfg
           (Demo.get Admin []) s
           [("id_token", PStr "id-token");
            ("id_token_claims", PDict [("roles", PStr "not-an-administrator")])]
           (PStr "id-token") (PDict [("name", PStr "alice")])
           [("roles", PStr "not-an-administrator")] "not-an-administrator");
    reflexivity.
Defined.

Lemma callback_error_result_stores_no_user_witness :
  let pending := session (Demo.run Admin [] ∅).1 in
  let out := Demo.run Authorized [("error", PStr "access_denied")] pending in
  out.2 = inl (KeyError "id_token") ∧
  session out.1 !! "user" = None ∧
  session out.1 !! "auth_code_flow" = None.
Proof.
  intros pending out.
  edestruct (callback_error_result_stores_no_user Demo.lib Demo.http Demo.cfg
               (Demo.get Authorized [("error", PStr "access_denied")]) pending)
    as (H1 & H2 & H3 & _);
    [reflexivity | vm_compute; reflexivity | reflexivity | reflexivity
    | reflexivity | reflexivity |].
  exact (conj H1 (conj H2 H3)).
Defined.

Lemma reachable_user_record_witness :
  let s := session (Demo.run Authorized [("code", PStr "c-1")]
                      (session (Demo.run Admin [] ∅).1)).1 in
  ∃ v, s !! "user" = Some v ∧ truthy v = true.
Proof.
  intros s. eexists. split; [vm_compute; reflexivity|].
  eapply (reachable_user_record s).
  - apply reachable_request, reachable_request, reachable_new.
  - vm_compute. reflexivity.
Defined.

Lemma callback_redirects_to_own_route_witness :
  ∃ d r,
    session (Demo.run Admin [] ∅).1 !! "auth_code_flow" = Some (PDict d) ∧
    dict_get "post_sign_in_url" d = Some (PStr (rule r)) ∧
    Redirect "/admin" = Redirect (rule r) ∧
    ∀ L' cfg' req' resp',
      (authorized L' cfg' req' (start (session (Demo.run Admin [] ∅).1))).2
        = inr resp' →
      resp' = Redirect "/admin".
Proof.
  apply (callback_redirects_to_own_route Demo.lib Demo.cfg
           (Demo.get Authorized [("code", PStr "c-1")])
           (session (Demo.run Admin [] ∅).1)).
  - apply reachable_request, reachable_new.
  - vm_compute. reflexivity.
Defined.

Lemma failed_begin_flow_still_signs_out_witness :
  let s := Demo.signed_in "expired-id-token" [] "{alice}" in
  let out := handle Outage.lib Demo.http Demo.cfg (Demo.get Admin []) s in
  out.2 = inl (OtherError "ConnectionError") ∧
  session out.1 !! "user" = None ∧
  session out.1 !! "token_cache" = Some (PStr "{alice}").
Proof.
  intros s out.
  edestruct (failed_begin_flow_still_signs_out Outage.lib Demo.http Demo.cfg
               (Demo.get Admin []) s)
    as (H1 & H2 & _ & H4 & _);
    [right; reflexivity | reflexivity | reflexivity | reflexivity
    | reflexivity |].
  exact (conj H1 (conj H2 H4)).
Defined.

(** * A signed-in session has a token cache *)


Section token_cache_invariant.
Variables (L : msal.Lib) (R : requests.Lib) (cfg : config).




End token_cache_invariant.




(** * Subclasses of RuntimeError *)

(** What holds for RuntimeError holds for every exception of its family,
    such as the ID-token error classes of the library: both protected views
    answer it with Unauthorized, and the request ends as on the session
    without its user entry. *)
Lemma undecodable_id_token_family_same_as_no_user
    L R cfg req (s : gmap string pyval) user tok e :
  url_rule req = Graph ∨ url_rule req = Admin →
  s !! "user" = Some user →
  py_getitem user "id_token" = inr tok →
  msal.decode_id_token tok = inl e →
  is_RuntimeError e = true →
  let stale := handle L R cfg req s in
  let anonymous := handle L R cfg req (delete "user" s) in
  (∃ d, (view_function L R cfg req (start s)).2 = inl (Unauthorized d)) ∧
  session stale.1 = session anonymous.1 ∧
  stale.2 = anonymous.2.
Proof.
  intros Hroute Hu Ht Hd He stale anonymous.
  pose proof (py_getitem_truthy _ _ _ Ht) as Htruthy.
  assert (Hview : ∃ st d, view_function L R cfg req (start s)
                          = (st, inl (Unauthorized d)) ∧ session st = s).
  { unfold view_function. destruct Hroute as [-> | ->].
    - destruct (truthy (default PNone (s !! "token_cache"))) eqn:Htc.
      + unfold graph. unfold mbind at 1 2 3, M_bind at 1 2 3. unfold_M. simpl.
        rewrite Hu, Htc. simpl. rewrite Htruthy. simpl. fold (start s).
        erewrite (check_id_token_propagates L _ (start s)) by eauto.
        rewrite He. simpl. eauto.
      + rewrite graph_guard by (right; simpl; done). eauto.
    - unfold admin. unfold mbind at 1 2, M_bind at 1 2. unfold_M. simpl.
      rewrite Hu. simpl. rewrite Htruthy. simpl. fold (start s).
      erewrite (check_id_token_propagates L _ (start s)) by eauto.
      rewrite He. simpl. eauto. }
  destruct Hview as (st & d & Hview & Hst).
  assert (Hanon : view_function L R cfg req (start (delete "user" s))
                  = (start (delete "user" s), inl (Unauthorized ""))).
  { unfold view_function. destruct Hroute as [-> | ->].
    - apply graph_guard. left. simpl. by rewrite lookup_delete_eq.
    - apply admin_guard. simpl. by rewrite lookup_delete_eq. }
  split; [exists d; by rewrite Hview|].
  subst stale anonymous. unfold handle, dispatch. rewrite Hview, Hanon.
  apply initiate_auth_code_flow_forgets_user.
  rewrite Hst. simpl. by rewrite delete_delete_eq.
Qed.
